(** * Personal Library Manager: the library store of
    [Ramdan_Coding_Night_11/Personal-Library-Manager/main.py]

    A shallow embedding of the classes [Book] and [LibraryManager] and of
    the part of the add form that builds a [Book], followed by the
    properties of the store that the specification states.

    Python objects are mutable and shared: [get_book_by_title] hands out a
    reference into [self.books] and the update methods assign through it.
    The embedding therefore keeps the [Book] objects in a heap and lets
    [self.books] be a list of references. *)

From Stdlib Require Import Ascii String QArith.
From stdpp Require Import base numbers strings list gmap fin_maps sorting.

Local Open Scope string_scope.
Local Open Scope list_scope.
Local Open Scope nat_scope.

(** ** Strings *)

Module Str.

(** [str.lower], on the ASCII letters: the 26 capitals move to their small
    letters, every other character stays. *)
Definition lower_char (c : ascii) : ascii :=
  let n := nat_of_ascii c in
  if (65 <=? n) && (n <=? 90) then ascii_of_nat (n + 32) else c.

Fixpoint lower (s : string) : string :=
  match s with
  | EmptyString => EmptyString
  | String c s' => String (lower_char c) (lower s')
  end.

(** [s.startswith(q)]. *)
Fixpoint startswith (q s : string) : bool :=
  match q, s with
  | EmptyString, _ => true
  | String _ _, EmptyString => false
  | String a q', String b s' =>
      if decide (a = b) then startswith q' s' else false
  end.

(** [q in s] for two strings: [q] starts at some position of [s]. *)
Fixpoint contains (q s : string) : bool :=
  startswith q s ||
  match s with
  | EmptyString => false
  | String _ s' => contains q s'
  end.

(** Truth value of a string: only the empty string is false. *)
Definition truthy (s : string) : Prop := s ≠ "".

Global Instance truthy_dec s : Decision (truthy s).
Proof. unfold truthy. apply _. Defined.

End Str.

(** ** Book *)

(** The attributes, typed as [__init__] annotates them. A rating is a Python
    number; the embedding keeps it as a rational, which is exact for what
    the code does with it: comparing it with 0 and 5, storing it, and writing
    it to the file and reading it back. *)
Record Book := mkBook {
  title : string;
  author : string;
  isbn : string;
  genre : string;
  publication_year : option Z;
  publisher : string;
  pages : option Z;
  status : string;            (* Unread, Reading, Completed *)
  date_added : string;
  rating : option Q;          (* 1-5 scale *)
  notes : string
}.

Global Instance Book_inhabited : Inhabited Book :=
  populate (mkBook "" "" "" "" None "" None "" "" None "").

(** [Book.__init__]. [today] is what
    [datetime.datetime.now().strftime("%Y-%m-%d")] returns at the call. *)
Definition Book_init (today : string)
    (title author isbn genre : string) (publication_year : option Z)
    (publisher : string) (pages : option Z) (status : string)
    (date_added : option string) (rating : option Q) (notes : string) : Book :=
  mkBook title author isbn genre publication_year publisher pages status
    (match date_added with
     | Some d => if decide (Str.truthy d) then d else today
     | None => today
     end)
    rating notes.

(** Assignment to one attribute of a [Book]. *)
Definition set_status (v : string) (b : Book) : Book :=
  mkBook (title b) (author b) (isbn b) (genre b) (publication_year b)
    (publisher b) (pages b) v (date_added b) (rating b) (notes b).

Definition set_rating (v : option Q) (b : Book) : Book :=
  mkBook (title b) (author b) (isbn b) (genre b) (publication_year b)
    (publisher b) (pages b) (status b) (date_added b) v (notes b).

Definition set_notes (v : string) (b : Book) : Book :=
  mkBook (title b) (author b) (isbn b) (genre b) (publication_year b)
    (publisher b) (pages b) (status b) (date_added b) (rating b) v.

(** ** JSON values, as [json.load] returns them and [json.dump] takes them *)

#[warnings="-register-all"]
Inductive json :=
  | JNull
  | JBool (b : bool)
  | JInt (n : Z)
  | JFloat (q : Q)
  | JStr (s : string)
  | JList (l : list json)
  | JDict (d : gmap string json).

Definition json_of_opt {A} (f : A → json) (o : option A) : json :=
  match o with Some a => f a | None => JNull end.

(** [Book.to_dict]. *)
Definition to_dict (b : Book) : json :=
  JDict (list_to_map
    [ ("title", JStr (title b));
      ("author", JStr (author b));
      ("isbn", JStr (isbn b));
      ("genre", JStr (genre b));
      ("publication_year", json_of_opt JInt (publication_year b));
      ("publisher", JStr (publisher b));
      ("pages", json_of_opt JInt (pages b));
      ("status", JStr (status b));
      ("date_added", JStr (date_added b));
      ("rating", json_of_opt JFloat (rating b));
      ("notes", JStr (notes b)) ]).

(** ** Outcomes of a call *)

Inductive exn := JSONDecodeError | TypeError | AttributeError.

(** A call returns, raises, or leaves the typed data model: [Untyped] stands
    for a run in which Python goes on with a [Book] one of whose attributes
    holds a value outside its annotation (a number as [title], say). *)
Inductive outcome (A : Type) :=
  | Returns (a : A)
  | Raises (e : exn)
  | Untyped.
Arguments Returns {A} a.
Arguments Raises {A} e.
Arguments Untyped {A}.

Global Instance outcome_ret : MRet outcome := λ A a, Returns a.
Global Instance outcome_bind : MBind outcome := λ A B f m,
  match m with
  | Returns a => f a
  | Raises e => Raises e
  | Untyped => Untyped
  end.

(** The value of an annotated parameter read from a JSON value. *)
Definition as_str (j : json) : option string :=
  match j with JStr s => Some s | _ => None end.

(** The truth value of a JSON value is false for [None], [False], the two
    zeros, and the empty string, list and dict. *)
Definition falsy (j : json) : bool :=
  match j with
  | JNull => true
  | JBool b => negb b
  | JInt n => (n =? 0)%Z
  | JFloat q => Qeq_bool q 0
  | JStr s => bool_decide (s = "")
  | JList l => match l with [] => true | _ :: _ => false end
  | JDict d => bool_decide (dom d = ∅)
  end.

(** The parameter [date_added] goes through [date_added or now]: a string
    is a date to look at, any other false value stands for no date, and any
    other true value would stay as the date. *)
Definition as_date (j : json) : option (option string) :=
  match j with
  | JStr s => Some (Some s)
  | _ => if falsy j then Some None else None
  end.

Definition as_opt_int (j : json) : option (option Z) :=
  match j with JNull => Some None | JInt n => Some (Some n) | _ => None end.

Definition as_opt_float (j : json) : option (option Q) :=
  match j with
  | JNull => Some None
  | JInt n => Some (Some (inject_Z n))
  | JFloat q => Some (Some q)
  | _ => None
  end.

(** A keyword argument with a default. *)
Definition kwarg {A} (cast : json → option A) (dflt : A)
    (d : gmap string json) (k : string) : option A :=
  match d !! k with
  | Some j => cast j
  | None => Some dflt
  end.

(** The parameters of [Book.__init__] after [self]. *)
Definition Book_params : gset string :=
  list_to_set [ "title"; "author"; "isbn"; "genre"; "publication_year";
                "publisher"; "pages"; "status"; "date_added"; "rating";
                "notes" ].

Definition outcome_of_typed {A} (o : option A) : outcome A :=
  match o with Some a => Returns a | None => Untyped end.

(** [Book.from_dict] calls [cls] with the entries of [data] as keyword
    arguments: [data] has to be a mapping, each of its keys a parameter of
    [__init__], and the two parameters without a default have to be among
    them. *)
Definition from_dict (today : string) (data : json) : outcome Book :=
  match data with
  | JDict d =>
      if decide (dom d ⊆ Book_params) then
        match d !! "title", d !! "author" with
        | Some jt, Some ja =>
            outcome_of_typed (
              t ← as_str jt;
              a ← as_str ja;
              i ← kwarg as_str "" d "isbn";
              g ← kwarg as_str "" d "genre";
              y ← kwarg as_opt_int None d "publication_year";
              p ← kwarg as_str "" d "publisher";
              n ← kwarg as_opt_int None d "pages";
              s ← kwarg as_str "Unread" d "status";
              da ← kwarg as_date None d "date_added";
              r ← kwarg as_opt_float None d "rating";
              no ← kwarg as_str "" d "notes";
              Some (Book_init today t a i g y p n s da r no))
        | _, _ => Raises TypeError
        end
      else Raises TypeError
  | _ => Raises TypeError
  end.

(** ** The store and the world it runs in *)

(** A reference to a [Book] object. *)
Abbreviation ref := nat (only parsing).

(** The text of a file, as [json] sees it: [Encoded j] is a text that
    [json.load] decodes to [j], and what [json.dump] writes for [j];
    [Garbled raw] is a text on which [json.load] raises [JSONDecodeError].
    A file that cannot be read as text at all, or on which [json.load]
    fails in another way, has no place here. *)
Inductive text :=
  | Garbled (raw : string)
  | Encoded (j : json).

(** What the methods hand to [st.success], [st.error] and [st.info]. *)
Inductive message :=
  | Loaded (count : nat) (file : string)
  | DecodingFailed (file : string)
  | NoLibraryFile (file : string)
  | Saved (file : string)
  | Added (title author : string)
  | AddedToYourLibrary (title author : string)
  | Removed (title : string)
  | NotFound (title : string)
  | StatusUpdated (title status : string)
  | RatingOutOfRange
  | Rated (title : string) (rating : Q)
  | NotesAdded (title : string)
  | FieldsRequired.

Inductive notice :=
  | st_success (m : message)
  | st_error (m : message)
  | st_info (m : message).

(** The attributes of a [LibraryManager] ([data_file], [books]) and what its
    methods reach outside it: the [Book] objects, the files, the notices
    shown so far and the date of the day. *)
Record Store := mkStore {
  data_file : string;
  books : list ref;
  heap : gmap ref Book;
  disk : gmap string text;
  ui : list notice;
  today : string
}.

(** The object behind a reference. A reference that the program holds always
    has its object; the total lookup spares the methods a case that does not
    arise. *)
Definition deref (s : Store) (r : ref) : Book := heap s !!! r.

(** The collection as values, in order. *)
Definition collection (s : Store) : list Book := deref s <$> books s.

Definition with_books (bs : list ref) (s : Store) : Store :=
  mkStore (data_file s) bs (heap s) (disk s) (ui s) (today s).

Definition with_heap (h : gmap ref Book) (s : Store) : Store :=
  mkStore (data_file s) (books s) h (disk s) (ui s) (today s).

Definition with_disk (d : gmap string text) (s : Store) : Store :=
  mkStore (data_file s) (books s) (heap s) d (ui s) (today s).

Definition notify (n : notice) (s : Store) : Store :=
  mkStore (data_file s) (books s) (heap s) (disk s) (ui s ++ [n]) (today s).

(** A new object. *)
Definition alloc (b : Book) (h : gmap ref Book) : ref * gmap ref Book :=
  let r := fresh (dom h) in (r, <[r := b]> h).

(** ** LibraryManager *)

(** [for book in books_data]: a list gives its items, a dict its keys, a
    string its characters; the other JSON values are not iterable. *)
Definition iterate (j : json) : outcome (list json) :=
  match j with
  | JList l => Returns l
  | JDict d => Returns (JStr <$> (map_to_list d).*1)
  | JStr s => Returns ((λ c, JStr (String c EmptyString)) <$> list_ascii_of_string s)
  | _ => Raises TypeError
  end.

(** [[Book.from_dict(book) for book in books_data]]. *)
Fixpoint from_dicts (today : string) (l : list json) (h : gmap ref Book)
    : outcome (list ref * gmap ref Book) :=
  match l with
  | [] => Returns ([], h)
  | j :: l' =>
      b ← from_dict today j;
      let '(r, h1) := alloc b h in
      '(rs, h2) ← from_dicts today l' h1;
      Returns (r :: rs, h2)
  end.

(** [load_library]: only [JSONDecodeError] is caught. *)
Definition load_library (s : Store) : outcome Store :=
  match disk s !! data_file s with
  | Some (Encoded books_data) =>
      l ← iterate books_data;
      '(rs, h) ← from_dicts (today s) l (heap s);
      let s1 := with_books rs (with_heap h s) in
      Returns (notify (st_success (Loaded (length (books s1)) (data_file s))) s1)
  | Some (Garbled _) =>
      Returns (notify (st_error (DecodingFailed (data_file s))) s)
  | None =>
      Returns (notify (st_info (NoLibraryFile (data_file s))) s)
  end.

(** [LibraryManager.__init__], run in the world of [env]. *)
Definition LibraryManager_init (data_file : string) (env : Store)
    : outcome Store :=
  load_library (mkStore data_file [] (heap env) (disk env) (ui env) (today env)).

(** [save_library]: the file is opened for writing and receives the dump of
    the whole collection; writing is taken to succeed. *)
Definition save_library (s : Store) : Store :=
  let s1 :=
    with_disk (<[data_file s := Encoded (JList (to_dict <$> collection s))]> (disk s)) s in
  notify (st_success (Saved (data_file s))) s1.

(** [add_book]. *)
Definition add_book (book : ref) (s : Store) : Store :=
  let s1 := with_books (books s ++ [book]) s in
  let s2 := notify (st_success (Added (title (deref s1 book)) (author (deref s1 book)))) s1 in
  save_library s2.

(** The test of the two by-title loops. *)
Definition title_is (s : Store) (t : string) (r : ref) : Prop :=
  Str.lower (title (deref s r)) = Str.lower t.

Global Instance title_is_dec s t r : Decision (title_is s t r).
Proof. unfold title_is. apply _. Defined.

(** [remove_book]. *)
Definition remove_book (book_title : string) (s : Store) : bool * Store :=
  let initial_count := length (books s) in
  let s1 := with_books (filter (λ r, ¬ title_is s book_title r) (books s)) s in
  if decide (length (books s1) < initial_count) then
    let s2 := notify (st_success (Removed book_title)) s1 in
    (true, save_library s2)
  else
    (false, notify (st_error (NotFound book_title)) s1).

(** [get_book_by_title]: the first match, as a reference. *)
Definition get_book_by_title (t : string) (s : Store) : option ref :=
  snd <$> list_find (title_is s t) (books s).

(** [update_book_status]. *)
Definition update_book_status (t status : string) (s : Store) : bool * Store :=
  match get_book_by_title t s with
  | Some book =>
      let s1 := with_heap (<[book := set_status status (deref s book)]> (heap s)) s in
      let s2 := notify (st_success (StatusUpdated (title (deref s1 book)) status)) s1 in
      (true, save_library s2)
  | None => (false, notify (st_error (NotFound t)) s)
  end.

(** [0 <= rating <= 5] and [rating > 0]. *)
Definition in_range (rating : Q) : bool :=
  Qle_bool 0 rating && Qle_bool rating 5.

Definition positive_rating (rating : Q) : bool := negb (Qle_bool rating 0).

(** [rate_book]. *)
Definition rate_book (t : string) (rating : Q) (s : Store) : bool * Store :=
  if negb (in_range rating) then
    (false, notify (st_error RatingOutOfRange) s)
  else
    match get_book_by_title t s with
    | Some book =>
        let v := if positive_rating rating then Some rating else None in
        let s1 := with_heap (<[book := set_rating v (deref s book)]> (heap s)) s in
        let s2 := notify (st_success (Rated (title (deref s1 book)) rating)) s1 in
        (true, save_library s2)
    | None => (false, notify (st_error (NotFound t)) s)
    end.

(** [add_notes]. *)
Definition add_notes (t notes : string) (s : Store) : bool * Store :=
  match get_book_by_title t s with
  | Some book =>
      let s1 := with_heap (<[book := set_notes notes (deref s book)]> (heap s)) s in
      let s2 := notify (st_success (NotesAdded (title (deref s1 book)))) s1 in
      (true, save_library s2)
  | None => (false, notify (st_error (NotFound t)) s)
  end.

(** The test of the loop of [search_books], [query] already in small
    letters. *)
Definition matches (query : string) (b : Book) : bool :=
  Str.contains query (Str.lower (title b))
  || Str.contains query (Str.lower (author b))
  || (bool_decide (Str.truthy (genre b))
      && Str.contains query (Str.lower (genre b))).

(** [search_books]. *)
Definition search_books (query : string) (s : Store) : list ref * Store :=
  let query := Str.lower query in
  let results :=
    foldl (λ results book,
             if matches query (deref s book) then results ++ [book] else results)
          [] (books s) in
  (results, s).

(** The values an attribute of a [Book] object can hold. *)
Inductive pyobj :=
  | PNone
  | PInt (n : Z)
  | PFloat (q : Q)
  | PStr (s : string)
  | PMethod.

Definition pyobj_of_opt {A} (f : A → pyobj) (o : option A) : pyobj :=
  match o with Some a => f a | None => PNone end.

(** The attributes that [hasattr] finds on a [Book] and [list_books] can tell
    from a missing one: the eleven that [__init__] assigns, the members that
    the class body defines, and [__module__], which every class carries and
    which is ["__main__"] for the script. ([object] hands down further
    attributes; none of them is a string, and the loop of [list_books] passes
    over an attribute that is not a string as it does over a missing one.) *)
Definition attributes (b : Book) : gmap string pyobj :=
  list_to_map
    [ ("title", PStr (title b));
      ("author", PStr (author b));
      ("isbn", PStr (isbn b));
      ("genre", PStr (genre b));
      ("publication_year", pyobj_of_opt PInt (publication_year b));
      ("publisher", PStr (publisher b));
      ("pages", pyobj_of_opt PInt (pages b));
      ("status", PStr (status b));
      ("date_added", PStr (date_added b));
      ("rating", pyobj_of_opt PFloat (rating b));
      ("notes", PStr (notes b));
      ("__init__", PMethod);
      ("to_dict", PMethod);
      ("from_dict", PMethod);
      ("__str__", PMethod);
      ("__module__", PStr "__main__");
      ("__doc__", PNone) ].

(** [getattr(book, name)], [None] when [hasattr(book, name)] is false. *)
Definition getattr (b : Book) (name : string) : option pyobj :=
  attributes b !! name.

(** The loop of [list_books]. A missing [value] is [None], and calling
    [lower] on it raises [AttributeError]; the call is reached when the
    attribute of the book at hand is a string. *)
Fixpoint list_books_loop (s : Store) (filter_by : string)
    (value : option string) (bs : list ref) (filtered_books : list ref)
    : outcome (list ref) :=
  match bs with
  | [] => Returns filtered_books
  | book :: bs' =>
      match getattr (deref s book) filter_by with
      | Some (PStr book_value) =>
          match value with
          | Some v =>
              if decide (Str.lower book_value = Str.lower v)
              then list_books_loop s filter_by value bs' (filtered_books ++ [book])
              else list_books_loop s filter_by value bs' filtered_books
          | None => Raises AttributeError
          end
      | _ => list_books_loop s filter_by value bs' filtered_books
      end
  end.

(** [list_books]; [not filter_by] holds for [None] and for the empty
    string. *)
Definition list_books (filter_by value : option string) (s : Store)
    : outcome (list ref) * Store :=
  match filter_by with
  | Some f =>
      if decide (Str.truthy f) then (list_books_loop s f value (books s) [], s)
      else (Returns (books s), s)
  | None => (Returns (books s), s)
  end.

(** The result of [get_statistics]. *)
Record Statistics := mkStatistics {
  total_books : nat;
  genres : gmap string nat;
  statuses : gmap string nat;
  authors : gmap string nat
}.

(** [d[k] = d.get(k, 0) + 1]. *)
Definition count_up (k : string) (d : gmap string nat) : gmap string nat :=
  <[k := default 0 (d !! k) + 1]> d.

Definition count_truthy (k : string) (d : gmap string nat) : gmap string nat :=
  if decide (Str.truthy k) then count_up k d else d.

Definition statuses_init : gmap string nat :=
  list_to_map [ ("Unread", 0); ("Reading", 0); ("Completed", 0) ].

(** One round of the loop of [get_statistics]. *)
Definition tally (s : Store) (acc : Statistics) (book : ref) : Statistics :=
  let b := deref s book in
  mkStatistics (total_books acc)
    (count_truthy (genre b) (genres acc))
    (count_truthy (status b) (statuses acc))
    (count_truthy (author b) (authors acc)).

(** [get_statistics]. *)
Definition get_statistics (s : Store) : Statistics * Store :=
  let total_books := length (books s) in
  (foldl (tally s) (mkStatistics total_books ∅ statuses_init ∅) (books s), s).

(** The branch of [add_book_form] that runs when the form is submitted,
    with the values of its widgets. *)
Definition add_book_form_submitted (title author genre : string)
    (pub_year pages : Z) (isbn publisher status : string) (rating : Q)
    (notes : string) (s : Store) : Store :=
  let rating := if Qeq_bool rating 0 then None else Some rating in
  if decide (Str.truthy title ∧ Str.truthy author) then
    let new_book :=
      Book_init (today s) title author isbn genre
        (if (0 <? pub_year)%Z then Some pub_year else None) publisher
        (if (0 <? pages)%Z then Some pages else None) status None rating notes in
    let '(r, h) := alloc new_book (heap s) in
    notify (st_success (AddedToYourLibrary title author))
      (add_book r (with_heap h s))
  else
    notify (st_error FieldsRequired) s.

(** ** Sample runs *)

Module Sample.

(** The three books of [create_sample_books], made on 2025-03-12. *)
Definition mockingbird : Book :=
  Book_init "2025-03-12" "To Kill a Mockingbird" "Harper Lee"
    "9780061120084" "Fiction" (Some 1960%Z) "HarperCollins" (Some 281%Z)
    "Completed" None (Some 5%Q)
    "Classic novel about racial injustice in the American South.".

Definition nineteen_eighty_four : Book :=
  Book_init "2025-03-12" "1984" "George Orwell" "9780451524935" "Dystopian"
    (Some 1949%Z) "Signet Classics" (Some 328%Z) "Reading" None
    (Some (9 # 2)%Q)
    "Orwell's masterpiece about totalitarianism and surveillance.".

Definition gatsby : Book :=
  Book_init "2025-03-12" "The Great Gatsby" "F. Scott Fitzgerald"
    "9780743273565" "Fiction" (Some 1925%Z) "Scribner" (Some 180%Z)
    "Unread" None None
    "A classic exploration of the American Dream in the Jazz Age.".

(** A world with no file and the three objects. *)
Definition world : Store :=
  mkStore "" [] (list_to_map [(0, mockingbird); (1, nineteen_eighty_four); (2, gatsby)])
    ∅ [] "2025-03-12".

(** [main] on its first run: a manager on ["library.json"], then the three
    sample books. *)
Definition first_run : outcome Store :=
  s ← LibraryManager_init "library.json" world;
  Returns (add_book 2 (add_book 1 (add_book 0 s))).

Definition library : Store :=
  match first_run with Returns s => s | _ => world end.


(** Two copies of one title, added to an empty library. *)
Definition dune : Book :=
  Book_init "2025-03-12" "Dune" "Frank Herbert" "" "" None "" None "Unread"
    None None "".

Definition dune_reprint : Book :=
  Book_init "2025-03-12" "DUNE" "Frank Herbert" "" "" (Some 1990%Z) "Ace" None "Unread"
    None None "".

Definition two_dunes : Store :=
  add_book 1 (add_book 0
    (mkStore "library.json" [] (list_to_map [(0, dune); (1, dune_reprint)])
       ∅ [] "2025-03-12")).

(** A book built with a rating of 0, and a library it is added to. *)
Definition pamphlet : Book :=
  Book_init "2025-03-12" "Common Sense" "Thomas Paine" "" "" None "" None
    "Unread" None (Some 0%Q) "".

Definition pamphlet_world : Store :=
  mkStore "library.json" [] (list_to_map [(0, pamphlet)]) ∅ [] "2025-03-12".

(** A world whose library file does not decode, and a library without
    books or files. *)
Definition garbled_world : Store :=
  mkStore "" [] ∅ {[ "library.json" := Garbled "[{'title': 'Dune'" ]} []
    "2025-03-12".

Definition empty_library : Store :=
  mkStore "library.json" [] ∅ ∅ [] "2025-03-12".

(** A world whose library file decodes to a record without author. *)
Definition authorless_world : Store :=
  mkStore "" [] ∅
    {[ "library.json" := Encoded (JList [JDict {[ "title" := JStr "Dune" ]}]) ]}
    [] "2025-03-12".

End Sample.

(** ** The pages of the application *)

(** [create_sample_books], called on the day [today]. *)
Definition create_sample_books (today : string) : list Book :=
  [ Book_init today "To Kill a Mockingbird" "Harper Lee" "9780061120084"
      "Fiction" (Some 1960%Z) "HarperCollins" (Some 281%Z) "Completed" None
      (Some 5%Q) "Classic novel about racial injustice in the American South.";
    Book_init today "1984" "George Orwell" "9780451524935" "Dystopian"
      (Some 1949%Z) "Signet Classics" (Some 328%Z) "Reading" None
      (Some (9 # 2)%Q)
      "Orwell's masterpiece about totalitarianism and surveillance.";
    Book_init today "The Great Gatsby" "F. Scott Fitzgerald" "9780743273565"
      "Fiction" (Some 1925%Z) "Scribner" (Some 180%Z) "Unread" None None
      "A classic exploration of the American Dream in the Jazz Age." ].

(** The objects of a list of new books, made in order. *)
Fixpoint alloc_all (bs : list Book) (h : gmap ref Book)
    : list ref * gmap ref Book :=
  match bs with
  | [] => ([], h)
  | b :: bs' =>
      let '(r, h1) := alloc b h in
      let '(rs, h2) := alloc_all bs' h1 in
      (r :: rs, h2)
  end.

(** The start of [main] in a session that has no library yet: a manager on
    the default file, and the sample books when it comes up empty. *)
Definition main_startup (env : Store) : outcome Store :=
  s ← LibraryManager_init "library.json" env;
  if decide (books s = []) then
    let '(rs, h) := alloc_all (create_sample_books (today s)) (heap s) in
    Returns (foldl (λ s book, add_book book s) (with_heap h s) rs)
  else Returns s.

(** The books [view_library] puts in its table, for the choices made in its
    two select boxes. The comparison is [==]: letter case counts. *)
Definition view_library_books (filter_option selected : string) (s : Store)
    : list ref :=
  if decide (filter_option = "Status") then
    if decide (selected ≠ "All")
    then filter (λ book, status (deref s book) = selected) (books s)
    else books s
  else if decide (filter_option = "Genre") then
    if decide (selected ≠ "All")
    then filter (λ book, genre (deref s book) = selected) (books s)
    else books s
  else if decide (filter_option = "Author") then
    if decide (selected ≠ "All")
    then filter (λ book, author (deref s book) = selected) (books s)
    else books s
  else books s.

(** The order of two strings, [x <= y]. *)
Definition str_le (x y : string) : Prop := String.leb x y = true.

Global Instance str_le_dec x y : Decision (str_le x y).
Proof. unfold str_le. apply _. Defined.

(** [["All"] + sorted(values)] for [values = list(set(f(book) for book in
    books if f(book)))]: the values without repetition, in the order of
    strings. *)
Definition choices (f : Book → string) (s : Store) : list string :=
  "All" :: merge_sort str_le
             (remove_dups (filter Str.truthy (f <$> collection s))).

Definition genre_choices (s : Store) : list string := choices genre s.
Definition author_choices (s : Store) : list string := choices author s.

(** What the update form submits. *)
Inductive update :=
  | Status (new_status : string)
  | Rating (new_rating : Q)
  | Notes (new_notes : string)
  | AllDetails (new_title new_author new_genre : string)
      (new_pub_year new_pages : Z) (new_isbn new_publisher new_status : string)
      (new_rating : Q) (new_notes : string).

(** The notices that the update and remove pages show themselves; those of
    the methods of the library go to [ui]. *)
Inductive page_notice :=
  | NoBooksToUpdate
  | NoBooksToRemove
  | DetailsUpdated (selected_title : string).

(** The assignments of the branch "All Details". *)
Definition set_details (u_title u_author u_genre : string)
    (u_pub_year u_pages : Z) (u_isbn u_publisher u_status : string)
    (u_rating : Q) (u_notes : string) (b : Book) : Book :=
  mkBook u_title u_author u_isbn u_genre
    (if (0 <? u_pub_year)%Z then Some u_pub_year else None) u_publisher
    (if (0 <? u_pages)%Z then Some u_pages else None) u_status (date_added b)
    (if positive_rating u_rating then Some u_rating else None) u_notes.

(** [update_book_form] with a title selected and the form submitted. *)
Definition update_book_form (selected_title : string) (u : update) (s : Store)
    : list page_notice * Store :=
  if decide (books s = []) then ([NoBooksToUpdate], s)
  else if decide (Str.truthy selected_title) then
    match get_book_by_title selected_title s with
    | Some book =>
        match u with
        | Status new_status =>
            ([], (update_book_status selected_title new_status s).2)
        | Rating new_rating =>
            ([], (rate_book selected_title new_rating s).2)
        | Notes new_notes =>
            ([], (add_notes selected_title new_notes s).2)
        | AllDetails t a g y p i pu st r n =>
            let s1 :=
              with_heap (<[book := set_details t a g y p i pu st r n (deref s book)]> (heap s)) s in
            ([DetailsUpdated selected_title], save_library s1)
        end
    | None => ([], s)
    end
  else ([], s).

(** [remove_book_form] with a title selected and the button pressed. *)
Definition remove_book_form (selected_title : string) (s : Store)
    : list page_notice * Store :=
  if decide (books s = []) then ([NoBooksToRemove], s)
  else if decide (Str.truthy selected_title)
  then ([], (remove_book selected_title s).2)
  else ([], s).

(** What a user does to the library on the pages. *)
Inductive action :=
  | SubmitAdd (title author genre : string) (pub_year pages : Z)
      (isbn publisher status : string) (rating : Q) (notes : string)
  | SubmitUpdate (selected_title : string) (u : update)
  | PressRemove (selected_title : string).

Definition act (s : Store) (a : action) : Store :=
  match a with
  | SubmitAdd t au g y p i pu st r n =>
      add_book_form_submitted t au g y p i pu st r n s
  | SubmitUpdate selected_title u => (update_book_form selected_title u s).2
  | PressRemove selected_title => (remove_book_form selected_title s).2
  end.

(** An afternoon at the pages: a removal, three updates and a new book. *)
Definition sample_actions : list action :=
  [ PressRemove "1984";
    SubmitUpdate "the great gatsby" (Rating 4);
    SubmitUpdate "To Kill a Mockingbird" (Notes "again in May");
    SubmitAdd "Dune" "Frank Herbert" "Science Fiction" 1965 0 "" "Chilton"
      "Unread" 0 "";
    SubmitUpdate "Dune"
      (AllDetails "Dune" "Frank Herbert" "Science Fiction" 1965 412 ""
         "Chilton" "Reading" 0 "");
    SubmitUpdate "Emma" (Status "Reading") ].

Global Instance str_le_total : Total str_le.
Proof. intros x y. apply String.leb_total. Qed.

(** ** What the specification says, in the terms of the embedding *)

(** [q] occurs in [s] when the case of the letters is left aside. *)
Definition occurs_in (q s : string) : Prop :=
  ∃ pre post, Str.lower s = pre +:+ Str.lower q +:+ post.

(** The books a search for [q] is to return. *)
Definition search_hit (q : string) (b : Book) : Prop :=
  occurs_in q (title b) ∨ occurs_in q (author b)
  ∨ (genre b ≠ "" ∧ occurs_in q (genre b)).

(** [s'] holds the same collection, objects and files as [s]. *)
Definition same_data (s s' : Store) : Prop :=
  data_file s' = data_file s ∧ books s' = books s ∧ heap s' = heap s
  ∧ disk s' = disk s.

(** The file of [s'] holds the collection of [s'], and no other file of [s]
    changed. *)
Definition persisted (s s' : Store) : Prop :=
  disk s' = <[data_file s := Encoded (JList (to_dict <$> collection s'))]> (disk s).

(** [r] is the first book of the collection, at position [i], whose title is
    [t], letter case aside. *)
Definition first_match (s : Store) (t : string) (i : nat) (r : ref) : Prop :=
  books s !! i = Some r ∧ title_is s t r
  ∧ ∀ j r', books s !! j = Some r' → j < i → ¬ title_is s t r'.

(** The reading of [removeBook] in the specification: when a first match
    exists, the collection afterwards is the old one without the entry at
    that position. *)
Definition removes_first_only (t : string) (s : Store) : Prop :=
  ∀ i r, first_match s t i r → books (remove_book t s).2 = delete i (books s).

(** [b'] has the attributes of [b], but for the one named. *)
Definition same_but_status (b b' : Book) : Prop :=
  title b' = title b ∧ author b' = author b ∧ isbn b' = isbn b
  ∧ genre b' = genre b ∧ publication_year b' = publication_year b
  ∧ publisher b' = publisher b ∧ pages b' = pages b
  ∧ date_added b' = date_added b ∧ rating b' = rating b ∧ notes b' = notes b.

Definition same_but_rating (b b' : Book) : Prop :=
  title b' = title b ∧ author b' = author b ∧ isbn b' = isbn b
  ∧ genre b' = genre b ∧ publication_year b' = publication_year b
  ∧ publisher b' = publisher b ∧ pages b' = pages b ∧ status b' = status b
  ∧ date_added b' = date_added b ∧ notes b' = notes b.

Definition same_but_notes (b b' : Book) : Prop :=
  title b' = title b ∧ author b' = author b ∧ isbn b' = isbn b
  ∧ genre b' = genre b ∧ publication_year b' = publication_year b
  ∧ publisher b' = publisher b ∧ pages b' = pages b ∧ status b' = status b
  ∧ date_added b' = date_added b ∧ rating b' = rating b.

(** From [s] to [s'] the object [r] became [b'], nothing else changed in the
    collection or among the objects, and the file was written. *)
Definition updated (s s' : Store) (r : ref) (b' : Book) : Prop :=
  data_file s' = data_file s ∧ books s' = books s
  ∧ heap s' = <[r := b']> (heap s)
  ∧ deref s' r = b'
  ∧ (∀ r', r' ≠ r → deref s' r' = deref s r')
  ∧ persisted s s'.

(** The rating that [rate] is to store for a value in range. *)
Definition stored_rating (q : Q) (o : option Q) : Prop :=
  ((0 < q)%Q → o = Some q) ∧ ((q == 0)%Q → o = None).

(** The reading of [addBook] in the specification: a rating of 0 carried by
    the book is stored as absent. *)
Definition add_book_normalizes (r : ref) (s : Store) : Prop :=
  ∀ q, rating (deref s r) = Some q → (q == 0)%Q →
       rating (deref (add_book r s) r) = None.

(** A book under the rule that a rating of 0 counts as no rating. *)
Definition unrated_view (b : Book) : Book :=
  set_rating
    (match rating b with
     | Some q => if Qeq_bool q 0 then None else Some q
     | None => None
     end) b.

(** The date of a book is set: what [Book.__init__] establishes, as
    [strftime] never returns the empty string, and what no method undoes. *)
Definition dated (b : Book) : Prop := date_added b ≠ "".

(** The notice [load_library] is to show for a file that is missing or does
    not decode: an error for the second, a plain remark for the first. *)
Definition load_notice (file : string) (content : option text) : notice :=
  match content with
  | Some _ => st_error (DecodingFailed file)
  | None => st_info (NoLibraryFile file)
  end.

(** The attribute [f] of [b] is a string. *)
Definition str_attr (f : string) (b : Book) : Prop :=
  ∃ x, getattr b f = Some (PStr x).

(** The attribute [f] of [b] is a string that equals [v], letter case
    aside. *)
Definition attr_equals (f v : string) (b : Book) : Prop :=
  ∃ x, getattr b f = Some (PStr x) ∧ Str.lower x = Str.lower v.

Global Instance attr_equals_dec f v b : Decision (attr_equals f v b).
Proof.
  unfold attr_equals. destruct (getattr b f) as [[| | |x|]|].
  1-3, 5-6: right; intros (x' & Hx & _); discriminate Hx.
  destruct (decide (Str.lower x = Str.lower v)) as [Heq|Hne].
  - left. exists x. split; [reflexivity|exact Heq].
  - right. intros (x' & Hx & Heq). injection Hx as ->. exact (Hne Heq).
Defined.

(** The attributes of the record that hold a string, with their
    projections. *)
Definition string_attributes : list (string * (Book → string)) :=
  [ ("title", title); ("author", author); ("isbn", isbn); ("genre", genre);
    ("publisher", publisher); ("status", status); ("date_added", date_added);
    ("notes", notes) ].

(** The names under which [list_books] can find a string: those of
    [string_attributes] and [__module__]. *)
Definition string_valued : list string :=
  string_attributes.*1 ++ ["__module__"].

(** How many books of [l] have the value [k] under [f]. *)
Definition occurrences (f : Book → string) (k : string) (l : list Book) : nat :=
  length (filter (λ b, f b = k) l).

(** The three values of [status]. *)
Definition status_values : list string := ["Unread"; "Reading"; "Completed"].

Definition valid_status (b : Book) : Prop := status b ∈ status_values.

(** The count a mapping of [get_statistics] is to hold under [k]: none for
    the empty string or a value no book has. *)
Definition observed_count (f : Book → string) (k : string) (l : list Book)
    : option nat :=
  if decide (k ≠ "" ∧ 0 < occurrences f k l) then Some (occurrences f k l)
  else None.

(** The reading of [rate] in the frame property of the specification: a
    matching title is enough for [rate] to return [True] and to write the
    file, whatever the rating. *)
Definition rate_accepts_on_match (t : string) (q : Q) (s : Store) : Prop :=
  ∀ i r, first_match s t i r →
         (rate_book t q s).1 = true ∧ persisted s (rate_book t q s).2.

(** The content of a well-formed library file: a list of records, each of
    which [from_dict] turns into a book. *)
Definition holds_library (today : string) (c : text) : Prop :=
  ∃ l bs, c = Encoded (JList l)
          ∧ Forall2 (λ j b, from_dict today j = Returns b) l bs.

(** The reading of [load] in the specification: whatever content of the
    file is not well-formed, the manager comes up, with an empty
    collection. *)
Definition recovers_on_bad_content (file : string) (env : Store) : Prop :=
  ∀ c, disk env !! file = Some c → ¬ holds_library (today env) c →
       ∃ s', LibraryManager_init file env = Returns s' ∧ books s' = [].

(** The file of the library holds its collection. *)
Definition synced (s : Store) : Prop :=
  disk s !! data_file s = Some (Encoded (JList (to_dict <$> collection s))).

(** A record that [from_dict] turns down: no mapping, no title, no author,
    or a key that is no parameter of [__init__]. *)
Definition ill_formed_record (data : json) : Prop :=
  match data with
  | JDict d =>
      d !! "title" = None ∨ d !! "author" = None ∨ ¬ dom d ⊆ Book_params
  | _ => True
  end.

(** The book [__init__] builds from the attributes of [b]. *)
Definition rebuilt (today : string) (b : Book) : Book :=
  Book_init today (title b) (author b) (isbn b) (genre b) (publication_year b)
    (publisher b) (pages b) (status b) (Some (date_added b)) (rating b)
    (notes b).

(** The filters of [view_library]: the option of the first select box, the
    attribute it compares, and the name of that attribute. *)
Definition view_filters : list (string * (string * (Book → string))) :=
  [ ("Status", ("status", status)); ("Genre", ("genre", genre));
    ("Author", ("author", author)) ].

(** How many books of the collection have the title [t], letter case
    aside. *)
Definition title_count (t : string) (s : Store) : nat :=
  length (filter (title_is s t) (books s)).






(** No object is in the collection twice, and every reference of the
    collection has its object. *)
Definition unshared (s : Store) : Prop :=
  NoDup (books s) ∧ ∀ r, r ∈ books s → r ∈ dom (heap s).

(** ** Sample runs, evaluated *)

Example from_dict_to_dict_sample :
  let b := mkBook "1984" "George Orwell" "9780451524935" "Dystopian"
             (Some 1949%Z) "Signet Classics" (Some 328%Z) "Reading"
             "2025-03-12" (Some (9 # 2)%Q) "" in
  from_dict "2025-03-20" (to_dict b) = Returns b.
Proof. vm_compute. reflexivity. Qed.

Example sample_books : books Sample.library = [0; 1; 2].
Proof. vm_compute. reflexivity. Qed.

Example sample_search :
  (search_books "fiction" Sample.library).1 = [0; 2]
  ∧ (search_books "ORWELL" Sample.library).1 = [1]
  ∧ (search_books "the" Sample.library).1 = [2].
Proof. vm_compute. done. Qed.

Example sample_list_books :
  (list_books (Some "status") (Some "reading") Sample.library).1 = Returns [1]
  ∧ (list_books (Some "pages") (Some "281") Sample.library).1 = Returns []
  ∧ (list_books (Some "genre") None Sample.library).1 = Raises AttributeError.
Proof. vm_compute. done. Qed.

Example sample_statistics :
  let st := (get_statistics Sample.library).1 in
  total_books st = 3
  ∧ genres st = list_to_map [("Fiction", 2); ("Dystopian", 1)]
  ∧ statuses st = list_to_map [("Unread", 1); ("Reading", 1); ("Completed", 1)].
Proof. vm_compute. done. Qed.

Example sample_remove :
  (remove_book "1984" Sample.library).1 = true
  ∧ books (remove_book "1984" Sample.library).2 = [0; 2]
  ∧ (remove_book "Dune" Sample.library).1 = false.
Proof. vm_compute. done. Qed.

Example sample_update :
  (update_book_status "the great gatsby" "Reading" Sample.library).1 = true
  ∧ status <$> collection (update_book_status "the great gatsby" "Reading"
                             Sample.library).2
    = ["Completed"; "Reading"; "Reading"]
  ∧ (add_notes "Dune" "reread" Sample.library).1 = false.
Proof. vm_compute. done. Qed.

Example sample_rate :
  (rate_book "1984" 0 Sample.library).1 = true
  ∧ rating <$> collection (rate_book "1984" 0 Sample.library).2
    = [Some 5%Q; None; None]
  ∧ (rate_book "1984" (11 # 2) Sample.library).1 = false.
Proof. vm_compute. done. Qed.

(** A file that decodes, but not to a list of records fit for [Book]: the
    [TypeError] of the call is not caught. *)
Example load_wrong_shape :
  LibraryManager_init "library.json"
    (mkStore "" [] ∅
       {[ "library.json" := Encoded (JList [JDict {[ "title" := JStr "Dune" ]}]) ]}
       [] "2025-03-12")
  = Raises TypeError
  ∧ LibraryManager_init "library.json"
      (mkStore "" [] ∅ {[ "library.json" := Encoded (JInt 3) ]} [] "2025-03-12")
    = Raises TypeError.
Proof. vm_compute. done. Qed.

(** The add form with the slider left at 0 stores a book without rating. *)
Example sample_form :
  rating <$> collection
    (add_book_form_submitted "Dune" "Frank Herbert" "" 1965 0 "" "" "Unread" 0
       "" Sample.empty_library)
  = [None].
Proof. vm_compute. done. Qed.

(** ** Strings: what the tests decide *)

Lemma startswith_spec q s :
  Str.startswith q s = true ↔ ∃ post, s = q +:+ post.
Proof.
  revert s. induction q as [|a q IH]; intros s; simpl.
  - split; [intros _; by exists s | done].
  - destruct s as [|b s].
    + split; [done | intros [post H]; discriminate H].
    + destruct (decide (a = b)) as [->|Hab].
      * rewrite IH. split; intros [post H]; exists post.
        -- by rewrite H.
        -- by injection H.
      * split; [done | intros [post H]; injection H; congruence].
Qed.

Lemma contains_spec q s :
  Str.contains q s = true ↔ ∃ pre post, s = pre +:+ q +:+ post.
Proof.
  induction s as [|a s IH]; simpl; rewrite orb_true_iff, startswith_spec.
  - split.
    + intros [[post H]|H]; [by exists "", post | done].
    + intros (pre & post & H). left. destruct pre; [by exists post | done].
  - rewrite IH. split.
    + intros [[post H]|(pre & post & H)].
      * by exists "", post.
      * exists (String a pre), post. simpl. by rewrite H.
    + intros (pre & post & H). destruct pre as [|c pre]; simpl in H.
      * left. by exists post.
      * right. exists pre, post. by injection H.
Qed.

Lemma contains_empty s : Str.contains "" s = true.
Proof. apply contains_spec. by exists "", s. Qed.

(** ** Loops that append are filters *)

Lemma foldl_append_filter {A} (p : A → bool) (l acc : list A) :
  foldl (λ res x, if p x then res ++ [x] else res) acc l
  = acc ++ filter (λ x, Is_true (p x)) l.
Proof.
  revert acc. induction l as [|x l IH]; intros acc; simpl.
  - by rewrite app_nil_r.
  - rewrite IH. destruct (p x) eqn:Hp.
    + rewrite filter_cons_True by (by rewrite Hp). by rewrite <- app_assoc.
    + rewrite filter_cons_False by (rewrite Hp; exact id). done.
Qed.

Lemma filter_all {A} (P : A → Prop) `{!∀ x, Decision (P x)} (l : list A) :
  (∀ x, x ∈ l → P x) → filter P l = l.
Proof.
  induction l as [|x l IH]; intros Hall; [done|].
  rewrite filter_cons_True by (apply Hall; left).
  f_equal. apply IH. intros y Hy. apply Hall. by right.
Qed.

Lemma filter_none {A} (P : A → Prop) `{!∀ x, Decision (P x)} (l : list A) :
  (∀ x, x ∈ l → ¬ P x) → filter P l = [].
Proof.
  induction l as [|x l IH]; intros Hall; [done|].
  rewrite filter_cons_False by (apply Hall; left).
  apply IH. intros y Hy. apply Hall. by right.
Qed.

(** ** search_books *)

Lemma matches_spec q b :
  Is_true (matches (Str.lower q) b) ↔ search_hit q b.
Proof.
  unfold matches, search_hit, occurs_in.
  rewrite Is_true_true, !orb_true_iff, andb_true_iff, !contains_spec.
  rewrite bool_decide_eq_true. unfold Str.truthy. tauto.
Qed.

(** C5. [search_books] leaves the store as it is and returns, in the order
    of the collection, the books whose title, author or non-empty genre
    contains the query, letter case aside; the empty query returns the whole
    collection, and a query that no book contains returns the empty list. *)
Theorem search_books_spec (query : string) (s : Store) :
  (search_books query s).2 = s
  ∧ (search_books query s).1
      = filter (λ r, Is_true (matches (Str.lower query) (deref s r))) (books s)
  ∧ (∀ r, Is_true (matches (Str.lower query) (deref s r))
          ↔ search_hit query (deref s r))
  ∧ (∀ r, r ∈ (search_books query s).1
          ↔ r ∈ books s ∧ search_hit query (deref s r))
  ∧ (search_books "" s).1 = books s
  ∧ ((∀ r, r ∈ books s → ¬ search_hit query (deref s r))
      → (search_books query s).1 = []).
Proof.
  assert (Hfilter : ∀ q, (search_books q s).1
      = filter (λ r, Is_true (matches (Str.lower q) (deref s r))) (books s)).
  { intros q. unfold search_books. simpl.
    by rewrite (foldl_append_filter (λ r, matches (Str.lower q) (deref s r))). }
  split_and!.
  - done.
  - apply Hfilter.
  - intros r. apply matches_spec.
  - intros r. rewrite Hfilter, list_elem_of_filter, matches_spec. tauto.
  - rewrite Hfilter. apply filter_all. intros r _.
    apply matches_spec. left. exists "", (Str.lower (title (deref s r))). done.
  - intros Hnone. rewrite Hfilter. apply filter_none.
    intros r Hr. rewrite matches_spec. by apply Hnone.
Qed.

(** ** Lookup by title *)

Lemma get_book_by_title_Some t s r :
  get_book_by_title t s = Some r ↔ ∃ i, first_match s t i r.
Proof.
  unfold get_book_by_title, first_match. split.
  - intros H. apply fmap_Some in H as ([i r'] & H & ->).
    apply list_find_Some in H. by exists i.
  - intros (i & H). apply fmap_Some. exists (i, r). split; [|done].
    by apply list_find_Some.
Qed.

Lemma get_book_by_title_None t s :
  get_book_by_title t s = None ↔ ∀ r, r ∈ books s → ¬ title_is s t r.
Proof.
  unfold get_book_by_title. rewrite fmap_None, list_find_None, Forall_forall.
  done.
Qed.

Lemma first_match_unique s t i r i' r' :
  first_match s t i r → first_match s t i' r' → i = i' ∧ r = r'.
Proof.
  intros H H'.
  assert (Some r = Some r') as [= ->]; [|split; [|done]].
  - by rewrite <- (proj2 (get_book_by_title_Some t s r) (ex_intro _ i H)),
      <- (proj2 (get_book_by_title_Some t s r') (ex_intro _ i' H')).
  - destruct H as (Hi & Hr & Hmin), H' as (Hi' & Hr' & Hmin').
    destruct (lt_eq_lt_dec i i') as [[Hlt|Heq]|Hlt]; [|done|].
    + by destruct (Hmin' _ _ Hi Hlt).
    + by destruct (Hmin _ _ Hi' Hlt).
Qed.

(** ** remove_book *)

Lemma filter_shorter {A} (P : A → Prop) `{!∀ x, Decision (P x)} (l : list A) :
  length (filter P l) < length l ↔ ∃ x, x ∈ l ∧ ¬ P x.
Proof.
  split.
  - intros Hlt. destruct (decide (Exists (λ x, ¬ P x) l)) as [Hex|Hno].
    + apply Exists_exists in Hex. done.
    + rewrite filter_all in Hlt; [lia|].
      intros x Hx. destruct (decide (P x)) as [|Hn]; [done|].
      destruct Hno. apply Exists_exists. eauto.
  - intros (x & Hx & Hn). by apply (length_filter_lt _ _ x).
Qed.

(** C1, as the code has it. [remove_book] keeps, in order, the books whose
    title differs from the given one (letter case aside) and drops every
    book whose title matches, not only the first; no object changes. It
    returns [True] exactly when some title matched, and then the file holds
    the new collection; when it returns [False] the collection, the objects
    and the files are as before. *)
Theorem remove_book_spec (book_title : string) (s : Store) :
  let found := (remove_book book_title s).1 in
  let s' := (remove_book book_title s).2 in
  books s' = filter (λ r, ¬ title_is s book_title r) (books s)
  ∧ heap s' = heap s
  ∧ (found = true ↔ ∃ r, r ∈ books s ∧ title_is s book_title r)
  ∧ (found = true → persisted s s')
  ∧ (found = false → same_data s s').
Proof.
  unfold remove_book. simpl.
  destruct (decide (_ < _)) as [Hlt|Hge]; simpl.
  - split_and!; try done.
    split; [intros _|done].
    apply filter_shorter in Hlt as (r & Hr & Hn).
    exists r. split; [done|]. by apply dec_stable.
  - assert (Hnone : ∀ r, r ∈ books s → ¬ title_is s book_title r).
    { intros r Hr Ht. apply Hge, filter_shorter. exists r. eauto. }
    split_and!; try done.
    + split; [done|]. intros (r & Hr & Ht). by destruct (Hnone r).
    + intros _. unfold same_data. simpl. split_and!; try done.
      by apply filter_all.
Qed.

(** C1, the claim as the specification words it, fails on two books of one
    title: both go. *)
Lemma remove_book_not_first_only :
  first_match Sample.two_dunes "dune" 0 0
  ∧ books (remove_book "dune" Sample.two_dunes).2 = []
  ∧ delete 0 (books Sample.two_dunes) = [1]
  ∧ ¬ removes_first_only "dune" Sample.two_dunes.
Proof.
  assert (Hfirst : first_match Sample.two_dunes "dune" 0 0).
  { split_and!; [done|by vm_compute|]. intros j r' _ Hj. lia. }
  split_and!; [done|by vm_compute|done|].
  intros H. specialize (H 0 0 Hfirst). vm_compute in H. discriminate H.
Qed.

(** ** update_book_status, rate_book, add_notes *)

Lemma set_status_frame v b :
  status (set_status v b) = v ∧ same_but_status b (set_status v b).
Proof. by repeat split. Qed.

Lemma set_rating_frame v b :
  rating (set_rating v b) = v ∧ same_but_rating b (set_rating v b).
Proof. by repeat split. Qed.

Lemma set_notes_frame v b :
  notes (set_notes v b) = v ∧ same_but_notes b (set_notes v b).
Proof. by repeat split. Qed.

Lemma same_data_notify n s : same_data s (notify n s).
Proof. by repeat split. Qed.

(** Assigning through a reference and saving. *)
Lemma assign_and_save_updated s r b' n :
  updated s (save_library (notify n (with_heap (<[r := b']> (heap s)) s))) r b'.
Proof.
  unfold updated, persisted, deref. simpl. split_and!; try done.
  - apply lookup_total_insert_eq.
  - intros r' Hne. by apply lookup_total_insert_ne.
Qed.

Lemma in_range_true q : in_range q = true ↔ (0 <= q ∧ q <= 5)%Q.
Proof. unfold in_range. by rewrite andb_true_iff, !Qle_bool_iff. Qed.

Lemma in_range_false q : in_range q = false ↔ (q < 0 ∨ 5 < q)%Q.
Proof.
  rewrite <- not_true_iff_false, in_range_true. split.
  - intros Hn. destruct (Qlt_le_dec q 0) as [|H0]; [by left|].
    destruct (Qlt_le_dec 5 q) as [|H5]; [by right|]. by destruct Hn.
  - intros [H|H] [H0 H5].
    + by apply (Qlt_not_le _ _ H).
    + by apply (Qlt_not_le _ _ H).
Qed.

Lemma positive_rating_stored q :
  stored_rating q (if positive_rating q then Some q else None).
Proof.
  unfold stored_rating, positive_rating.
  destruct (Qle_bool q 0) eqn:Hle; simpl.
  - apply Qle_bool_iff in Hle. split; [|done].
    intros Hlt. by destruct (Qlt_not_le _ _ Hlt).
  - split; [done|]. intros Heq.
    assert (Qle_bool q 0 = true) as Hq; [|by rewrite Hq in Hle].
    apply Qle_bool_iff. rewrite Heq. apply Qle_refl.
Qed.

Lemma update_book_status_found t new_status s i r :
  first_match s t i r →
  (update_book_status t new_status s).1 = true
  ∧ updated s (update_book_status t new_status s).2 r
      (set_status new_status (deref s r)).
Proof.
  intros Hfirst. unfold update_book_status.
  rewrite (proj2 (get_book_by_title_Some t s r)) by eauto. simpl.
  split; [done|]. apply assign_and_save_updated.
Qed.

Lemma add_notes_found t new_notes s i r :
  first_match s t i r →
  (add_notes t new_notes s).1 = true
  ∧ updated s (add_notes t new_notes s).2 r (set_notes new_notes (deref s r)).
Proof.
  intros Hfirst. unfold add_notes.
  rewrite (proj2 (get_book_by_title_Some t s r)) by eauto. simpl.
  split; [done|]. apply assign_and_save_updated.
Qed.

Lemma rate_book_found t q s i r :
  in_range q = true → first_match s t i r →
  (rate_book t q s).1 = true
  ∧ updated s (rate_book t q s).2 r
      (set_rating (if positive_rating q then Some q else None) (deref s r)).
Proof.
  intros Hq Hfirst. unfold rate_book. rewrite Hq. simpl.
  rewrite (proj2 (get_book_by_title_Some t s r)) by eauto. simpl.
  split; [done|]. apply assign_and_save_updated.
Qed.

Lemma rate_book_out_of_range t q s :
  in_range q = false →
  rate_book t q s = (false, notify (st_error RatingOutOfRange) s).
Proof. intros Hq. unfold rate_book. by rewrite Hq. Qed.

Lemma update_methods_not_found t s :
  (∀ r, r ∈ books s → ¬ title_is s t r) →
  ∀ new_status q new_notes,
    update_book_status t new_status s = (false, notify (st_error (NotFound t)) s)
    ∧ (rate_book t q s).1 = false ∧ same_data s (rate_book t q s).2
    ∧ add_notes t new_notes s = (false, notify (st_error (NotFound t)) s).
Proof.
  intros Hnone%get_book_by_title_None new_status q new_notes.
  unfold update_book_status, rate_book, add_notes. rewrite Hnone.
  destruct (in_range q); simpl; split_and!; try done; apply same_data_notify.
Qed.

(** C8, as the code has it. When no title of the collection matches, [update_book_status],
    [rate_book] and [add_notes] return [False] and leave the collection, the
    objects and the files as they are. When [r] is the first match,
    [update_book_status] and [add_notes] return [True], and so does
    [rate_book] for a rating in range; the object [r] differs from what it
    was in the one attribute only, every other object and the order of the
    collection are as before, and the file holds the collection. *)
Theorem update_methods_frame (t : string) (s : Store) :
  ((∀ r, r ∈ books s → ¬ title_is s t r) →
     ∀ new_status q new_notes,
       (update_book_status t new_status s).1 = false
       ∧ same_data s (update_book_status t new_status s).2
       ∧ (rate_book t q s).1 = false
       ∧ same_data s (rate_book t q s).2
       ∧ (add_notes t new_notes s).1 = false
       ∧ same_data s (add_notes t new_notes s).2)
  ∧ (∀ i r, first_match s t i r →
     ∀ new_status q new_notes,
       ((update_book_status t new_status s).1 = true
        ∧ ∃ b', updated s (update_book_status t new_status s).2 r b'
                ∧ status b' = new_status ∧ same_but_status (deref s r) b')
       ∧ ((0 <= q ∧ q <= 5)%Q →
          (rate_book t q s).1 = true
          ∧ ∃ b', updated s (rate_book t q s).2 r b'
                  ∧ stored_rating q (rating b')
                  ∧ same_but_rating (deref s r) b')
       ∧ ((add_notes t new_notes s).1 = true
          ∧ ∃ b', updated s (add_notes t new_notes s).2 r b'
                  ∧ notes b' = new_notes ∧ same_but_notes (deref s r) b')).
Proof.
  split.
  - intros Hnone new_status q new_notes.
    destruct (update_methods_not_found t s Hnone new_status q new_notes)
      as (-> & Hr & Hs & ->).
    split_and!; try done; apply same_data_notify.
  - intros i r Hfirst new_status q new_notes. split_and!.
    + by destruct (update_book_status_found t new_status s i r Hfirst).
    + destruct (update_book_status_found t new_status s i r Hfirst) as [_ Hu].
      eexists. split; [exact Hu|]. apply set_status_frame.
    + intros Hq%in_range_true.
      destruct (rate_book_found t q s i r Hq Hfirst) as [Ht Hu].
      split; [done|]. eexists. split; [exact Hu|]. split.
      * apply positive_rating_stored.
      * apply set_rating_frame.
    + by destruct (add_notes_found t new_notes s i r Hfirst).
    + destruct (add_notes_found t new_notes s i r Hfirst) as [_ Hu].
      eexists. split; [exact Hu|]. apply set_notes_frame.
Qed.

(** C8, the claim as the specification words it, fails for [rate_book]: the
    title matches, the rating is out of range, and the call returns [False]
    and writes nothing. *)
Lemma rate_book_rejects_on_match :
  first_match Sample.library "1984" 1 1
  ∧ rate_book "1984" 7 Sample.library
    = (false, notify (st_error RatingOutOfRange) Sample.library)
  ∧ ¬ rate_accepts_on_match "1984" 7 Sample.library.
Proof.
  assert (Hfirst : first_match Sample.library "1984" 1 1).
  { split_and!; [done|by vm_compute|].
    intros j r' Hj Hlt. assert (j = 0) as -> by lia.
    vm_compute in Hj. injection Hj as <-.
    intros Heq. vm_compute in Heq. discriminate Heq. }
  split_and!; [done|by vm_compute|].
  intros H. destruct (H 1 1 Hfirst) as [Htrue _]. vm_compute in Htrue.
  discriminate Htrue.
Qed.

(** ** Ratings *)

Lemma set_rating_same b : rating b = None → set_rating None b = b.
Proof. destruct b. simpl. by intros ->. Qed.

Lemma add_book_books r s : books (add_book r s) = books s ++ [r].
Proof. done. Qed.

Lemma add_book_heap r s : heap (add_book r s) = heap s.
Proof. done. Qed.

Lemma add_book_persisted r s : persisted s (add_book r s).
Proof. done. Qed.

Lemma rate_book_zero_unrated t q s i r :
  (0 <= q ∧ q <= 5)%Q → (q == 0)%Q → first_match s t i r →
  rating (deref s r) = None →
  ∀ r', deref (rate_book t q s).2 r' = deref s r'.
Proof.
  intros Hq%in_range_true H0 Hfirst Hnone r'.
  destruct (rate_book_found t q s i r Hq Hfirst) as [_ Hu].
  destruct (positive_rating_stored q) as [_ Hz]. rewrite (Hz H0) in Hu.
  rewrite (set_rating_same _ Hnone) in Hu.
  destruct Hu as (_ & _ & _ & Hr & Hother & _).
  destruct (decide (r' = r)) as [->|Hne]; [done|by apply Hother].
Qed.

Lemma add_book_form_submitted_rating title author genre pub_year pages isbn
    publisher status q notes s :
  title ≠ "" → author ≠ "" →
  let s' := add_book_form_submitted title author genre pub_year pages isbn
              publisher status q notes s in
  let r := fresh (dom (heap s)) in
  books s' = books s ++ [r]
  ∧ rating (deref s' r) = (if Qeq_bool q 0 then None else Some q).
Proof.
  intros Ht Ha. unfold add_book_form_submitted.
  rewrite decide_True by done. unfold alloc, deref. simpl.
  split; [done|]. by rewrite lookup_total_insert_eq.
Qed.

(** C3, as the code has it. [rate_book] with a rating below 0 or above 5
    returns [False] whatever the title and the collection are, and shows an
    error; collection, objects and files stay. With a rating in range and a
    first match [r] it returns [True], writes the file and stores the rating
    in [r], a rating of 0 as no rating: rating an unrated book 0 leaves every
    object as it was. [add_book] stores the object it is given and changes no
    object, whatever rating it carries; it is the add form that turns a
    rating of 0 into no rating, before it builds the book. *)
Theorem rate_book_spec (t : string) (q : Q) (s : Store) :
  ((q < 0 ∨ 5 < q)%Q →
     rate_book t q s = (false, notify (st_error RatingOutOfRange) s)
     ∧ same_data s (rate_book t q s).2)
  ∧ ((0 <= q ∧ q <= 5)%Q → ∀ i r, first_match s t i r →
     (rate_book t q s).1 = true
     ∧ persisted s (rate_book t q s).2
     ∧ stored_rating q (rating (deref (rate_book t q s).2 r))
     ∧ ((q == 0)%Q → rating (deref s r) = None →
        collection (rate_book t q s).2 = collection s
        ∧ ∀ r', deref (rate_book t q s).2 r' = deref s r'))
  ∧ (∀ r, books (add_book r s) = books s ++ [r]
          ∧ heap (add_book r s) = heap s
          ∧ rating (deref (add_book r s) r) = rating (deref s r))
  ∧ (∀ title author genre pub_year pages isbn publisher status notes,
       title ≠ "" → author ≠ "" → (q == 0)%Q →
       ∃ r, books (add_book_form_submitted title author genre pub_year pages
                     isbn publisher status q notes s) = books s ++ [r]
            ∧ rating (deref (add_book_form_submitted title author genre
                               pub_year pages isbn publisher status q notes s) r)
              = None).
Proof.
  split_and!.
  - intros Hq%in_range_false. rewrite (rate_book_out_of_range t q s Hq).
    split; [done|]. apply same_data_notify.
  - intros Hq i r Hfirst.
    destruct (rate_book_found t q s i r (proj2 (in_range_true q) Hq) Hfirst)
      as [Htrue Hu].
    split_and!; [done|apply Hu| |].
    + destruct Hu as (_ & _ & _ & -> & _). apply positive_rating_stored.
    + intros H0 Hnone.
      pose proof (rate_book_zero_unrated t q s i r Hq H0 Hfirst Hnone) as Hsame.
      split; [|done]. unfold collection.
      destruct Hu as (_ & -> & _). apply list_fmap_ext. intros _ r' _. apply Hsame.
  - intros r. by rewrite add_book_books, add_book_heap.
  - intros title author genre pub_year pages isbn publisher status notes
      Ht Ha H0.
    exists (fresh (dom (heap s))).
    destruct (add_book_form_submitted_rating title author genre pub_year pages
                isbn publisher status q notes s Ht Ha) as [Hb Hr].
    split; [done|]. rewrite Hr. by rewrite (proj2 (Qeq_bool_iff q 0) H0).
Qed.

(** C3, the claim as the specification words it, fails for [add_book]: a book
    that carries a rating of 0 is stored with that rating. *)
Lemma add_book_keeps_rating_zero :
  rating (deref Sample.pamphlet_world 0) = Some 0%Q
  ∧ rating (deref (add_book 0 Sample.pamphlet_world) 0) = Some 0%Q
  ∧ ¬ add_book_normalizes 0 Sample.pamphlet_world.
Proof.
  split_and!; [by vm_compute|by vm_compute|].
  intros H. specialize (H 0%Q eq_refl (Qeq_refl 0)). vm_compute in H.
  discriminate H.
Qed.

(** ** Saving and loading *)

Lemma Book_init_dated today t a i g y p n st d r no :
  today ≠ "" → date_added (Book_init today t a i g y p n st d r no) ≠ "".
Proof.
  intros Htoday. unfold Book_init. simpl.
  destruct d as [d|]; [|done]. by destruct (decide (Str.truthy d)).
Qed.

Lemma from_dict_to_dict today b :
  date_added b ≠ "" → from_dict today (to_dict b) = Returns b.
Proof.
  destruct b as [t a i g y p n st d r no]. simpl. intros Hd.
  unfold from_dict, to_dict.
  rewrite decide_True by (by vm_compute).
  destruct d as [|c d]; [done|].
  by destruct y, n, r; vm_compute.
Qed.

Lemma from_dicts_to_dicts today bs h :
  Forall dated bs →
  ∃ rs h', from_dicts today (to_dict <$> bs) h = Returns (rs, h')
           ∧ h ⊆ h' ∧ (λ r, h' !!! r) <$> rs = bs.
Proof.
  intros Hbs. revert h. induction Hbs as [|b bs Hb _ IH]; intros h.
  - exists [], h. done.
  - rewrite fmap_cons. cbn [from_dicts].
    rewrite (from_dict_to_dict today b Hb). cbn [mbind outcome_bind alloc].
    set (r := fresh (dom h)).
    assert (Hfresh : h !! r = None) by apply not_elem_of_dom, is_fresh.
    destruct (IH (<[r := b]> h)) as (rs & h' & -> & Hsub & Hrs). simpl.
    exists (r :: rs), h'. split_and!; [done| |].
    + transitivity (<[r := b]> h); [by apply insert_subseteq|done].
    + simpl. f_equal; [|done]. apply lookup_total_correct.
      apply (lookup_weaken _ _ _ _ (lookup_insert_eq h r b) Hsub).
Qed.

(** C2. A store whose books carry their date is saved. A manager made
    afterwards on the same file, in any world whose disk holds what was
    saved there, whatever objects, notices and day that world has, returns,
    and the collection it loaded has the books of the saved one, in the same
    order and with the same value in every attribute; so it has them also
    when a rating of 0 is read as no rating. The files are as they were. *)
Theorem save_load_round_trip (s env : Store) :
  Forall dated (collection s) →
  disk env !! data_file s = disk (save_library s) !! data_file s →
  ∃ s', LibraryManager_init (data_file s) env = Returns s'
        ∧ collection s' = collection s
        ∧ unrated_view <$> collection s' = unrated_view <$> collection s
        ∧ data_file s' = data_file s
        ∧ disk s' = disk env.
Proof.
  intros Hdated Hdisk. unfold save_library in Hdisk. simpl in Hdisk.
  rewrite lookup_insert_eq in Hdisk.
  unfold LibraryManager_init, load_library. simpl. rewrite Hdisk. simpl.
  destruct (from_dicts_to_dicts (today env) (collection s) (heap env) Hdated)
    as (rs & h' & -> & _ & Hrs). simpl.
  eexists. split; [done|].
  match goal with |- collection ?s1 = _ ∧ _ =>
    assert (Hcoll : collection s1 = collection s) by exact Hrs
  end.
  rewrite Hcoll. done.
Qed.

Lemma save_load_round_trip_witness :
  let env := mkStore "" [7] {[ 0 := Sample.dune; 7 := Sample.pamphlet ]}
               (disk (save_library Sample.library)) [] "2031-01-01" in
  Forall dated (collection Sample.library)
  ∧ disk env !! data_file Sample.library
    = disk (save_library Sample.library) !! data_file Sample.library
  ∧ ∃ s', LibraryManager_init (data_file Sample.library) env = Returns s'
          ∧ collection s' = collection Sample.library
          ∧ unrated_view <$> collection s' = unrated_view <$> collection Sample.library
          ∧ data_file s' = data_file Sample.library
          ∧ disk s' = disk env.
Proof.
  intros env.
  assert (H1 : Forall dated (collection Sample.library)).
  { repeat constructor; by vm_compute. }
  assert (H2 : disk env !! data_file Sample.library
               = disk (save_library Sample.library) !! data_file Sample.library)
    by done.
  split; [exact H1|]. split; [exact H2|].
  exact (save_load_round_trip Sample.library env H1 H2).
Defined.

(** C4, as the code has it. A manager is made on a file that is missing, or
    whose text [json.load] turns down with [JSONDecodeError]: the
    constructor returns, with an empty collection and objects and files
    untouched; it shows one notice, an error for the text that does not
    decode and a remark for the missing file; and the store works: a book
    added to it makes the collection and lands in the file. *)
Theorem load_malformed_or_missing (file : string) (env : Store) :
  disk env !! file = None ∨ (∃ raw, disk env !! file = Some (Garbled raw)) →
  ∃ s', LibraryManager_init file env = Returns s'
        ∧ data_file s' = file ∧ books s' = []
        ∧ heap s' = heap env ∧ disk s' = disk env
        ∧ ui s' = ui env ++ [load_notice file (disk env !! file)]
        ∧ ∀ r, books (add_book r s') = [r]
               ∧ disk (add_book r s') !! file
                 = Some (Encoded (JList [to_dict (deref env r)])).
Proof.
  intros Hbad. unfold LibraryManager_init, load_library. simpl.
  destruct Hbad as [Hfile|[raw Hfile]]; rewrite Hfile.
  - eexists. split; [done|]. simpl. split_and!; try done.
    intros r. split; [done|]. simpl. by rewrite lookup_insert_eq.
  - eexists. split; [done|]. simpl. split_and!; try done.
    intros r. split; [done|]. simpl. by rewrite lookup_insert_eq.
Qed.

Lemma load_malformed_or_missing_witness :
  (disk Sample.garbled_world !! "library.json" = None
   ∨ ∃ raw, disk Sample.garbled_world !! "library.json" = Some (Garbled raw))
  ∧ ∃ s', LibraryManager_init "library.json" Sample.garbled_world = Returns s'
          ∧ data_file s' = "library.json" ∧ books s' = []
          ∧ heap s' = heap Sample.garbled_world
          ∧ disk s' = disk Sample.garbled_world
          ∧ ui s' = ui Sample.garbled_world
                    ++ [load_notice "library.json"
                          (disk Sample.garbled_world !! "library.json")]
          ∧ ∀ r, books (add_book r s') = [r]
                 ∧ disk (add_book r s') !! "library.json"
                   = Some (Encoded (JList [to_dict (deref Sample.garbled_world r)])).
Proof.
  assert (H : disk Sample.garbled_world !! "library.json" = None
              ∨ ∃ raw, disk Sample.garbled_world !! "library.json"
                       = Some (Garbled raw)).
  { right. eexists. by vm_compute. }
  split; [exact H|].
  exact (load_malformed_or_missing "library.json" Sample.garbled_world H).
Defined.

(** C4, the claim as the specification words it, fails on a file that
    decodes but does not hold a list of records fit for [Book]: here a
    record without author. [from_dict] raises [TypeError] inside the [try],
    the handler is for [JSONDecodeError] only, and the constructor does not
    return. *)
Lemma load_wrong_shape_not_recovered :
  disk Sample.authorless_world !! "library.json"
  = Some (Encoded (JList [JDict {[ "title" := JStr "Dune" ]}]))
  ∧ ¬ holds_library (today Sample.authorless_world)
        (Encoded (JList [JDict {[ "title" := JStr "Dune" ]}]))
  ∧ LibraryManager_init "library.json" Sample.authorless_world
    = Raises TypeError
  ∧ ¬ recovers_on_bad_content "library.json" Sample.authorless_world.
Proof.
  assert (Hbad : ¬ holds_library (today Sample.authorless_world)
                     (Encoded (JList [JDict {[ "title" := JStr "Dune" ]}]))).
  { intros (l & bs & [= <-] & Hl).
    apply Forall2_cons_inv_l in Hl as (b & bs' & Hb & _ & _).
    vm_compute in Hb. discriminate Hb. }
  split_and!; [by vm_compute|exact Hbad|by vm_compute|].
  intros Hrec.
  destruct (Hrec (Encoded (JList [JDict {[ "title" := JStr "Dune" ]}])))
    as (s' & Hs' & _); [by vm_compute|exact Hbad|].
  vm_compute in Hs'. discriminate Hs'.
Qed.

(** ** list_books *)

Lemma getattr_string_attribute f get b :
  (f, get) ∈ string_attributes → getattr b f = Some (PStr (get b)).
Proof.
  unfold string_attributes. intros H.
  repeat (apply elem_of_cons in H as [[= -> ->]|H]; [by vm_compute|]).
  by apply elem_of_nil in H.
Qed.

Lemma getattr_not_string f b x :
  f ∉ string_valued → getattr b f ≠ Some (PStr x).
Proof.
  intros Hf. unfold getattr, attributes.
  cbn [list_to_map foldr uncurry fst snd].
  repeat (rewrite lookup_insert; case_decide as Hk;
    [ first [ by destruct b as [? ? ? ? [?|] ? [?|] ? ? [?|] ?]
            | subst f; destruct Hf; apply (bool_decide_unpack _); by vm_compute ]
    | clear Hk ]).
  by rewrite lookup_empty.
Qed.

Lemma attr_equals_string_attribute f get v b :
  (f, get) ∈ string_attributes →
  attr_equals f v b ↔ Str.lower (get b) = Str.lower v.
Proof.
  intros Hf. unfold attr_equals. rewrite (getattr_string_attribute f get b Hf).
  split.
  - by intros (x & [= <-] & Hx).
  - intros Hx. by exists (get b).
Qed.

Lemma list_books_loop_value s f v bs acc :
  list_books_loop s f (Some v) bs acc
  = Returns (acc ++ filter (λ r, attr_equals f v (deref s r)) bs).
Proof.
  revert acc. induction bs as [|r bs IH]; intros acc; simpl.
  - by rewrite app_nil_r.
  - destruct (getattr (deref s r) f) as [[| | |x|]|] eqn:Hattr.
    1-3, 5-6: rewrite IH, filter_cons_False; [done|];
      unfold attr_equals; rewrite Hattr; by intros (x' & Hx & _).
    destruct (decide (Str.lower x = Str.lower v)) as [Heq|Hne]; rewrite IH.
    + rewrite filter_cons_True, <- app_assoc; [done|].
      exists x. by rewrite Hattr.
    + rewrite filter_cons_False; [done|].
      unfold attr_equals. rewrite Hattr. by intros (x' & [= <-] & Hx).
Qed.

Lemma list_books_loop_no_string s f value bs acc :
  (∀ r, r ∈ bs → ¬ str_attr f (deref s r)) →
  list_books_loop s f value bs acc = Returns acc.
Proof.
  revert acc. induction bs as [|r bs IH]; intros acc Hno; [done|]. simpl.
  destruct (getattr (deref s r) f) as [[| | |x|]|] eqn:Hattr.
  1-3, 5-6: apply IH; intros r' Hr'; apply Hno; by right.
  destruct (Hno r); [by left|]. by exists x.
Qed.

Lemma list_books_loop_no_value s f bs acc :
  (∃ r, r ∈ bs ∧ str_attr f (deref s r)) →
  list_books_loop s f None bs acc = Raises AttributeError.
Proof.
  revert acc. induction bs as [|r bs IH]; intros acc (r0 & Hr0 & Hstr).
  - by apply elem_of_nil in Hr0.
  - simpl. destruct (getattr (deref s r) f) as [[| | |x|]|] eqn:Hattr.
    4: done.
    all: apply IH; exists r0; split; [|done];
      apply elem_of_cons in Hr0 as [->|Hin]; [|done];
      destruct Hstr as [x Hx]; congruence.
Qed.

(** C6. Without a filter field, [list_books] returns the collection as it
    is. With a filter field and a value it returns, in order, the books
    whose attribute of that name is a string equal to the value, letter case
    aside: for the eight string attributes of the record, the books whose
    attribute equals the value. A filter field that names no attribute, or
    one that holds no string ([pages], [publication_year], [rating], a
    method), gives the empty list, with or without a value. The store is
    never changed. *)
Theorem list_books_spec (s : Store) :
  (∀ value, list_books None value s = (Returns (books s), s)
            ∧ list_books (Some "") value s = (Returns (books s), s))
  ∧ (∀ f value, (list_books (Some f) value s).2 = s)
  ∧ (∀ f v, f ≠ "" →
       (list_books (Some f) (Some v) s).1
       = Returns (filter (λ r, attr_equals f v (deref s r)) (books s)))
  ∧ (∀ f get v, (f, get) ∈ string_attributes →
       (list_books (Some f) (Some v) s).1
       = Returns (filter (λ r, Str.lower (get (deref s r)) = Str.lower v) (books s)))
  ∧ (∀ f value, f ≠ "" → f ∉ string_valued →
       (list_books (Some f) value s).1 = Returns [])
  ∧ (∀ f, f ∈ ["pages"; "publication_year"; "rating"; "language"] →
       f ≠ "" ∧ f ∉ string_valued).
Proof.
  assert (Hvalue : ∀ f v, f ≠ "" →
       (list_books (Some f) (Some v) s).1
       = Returns (filter (λ r, attr_equals f v (deref s r)) (books s))).
  { intros f v Hf. unfold list_books. rewrite decide_True by done. simpl.
    by rewrite list_books_loop_value. }
  split_and!.
  - done.
  - intros f value. unfold list_books. by destruct (decide (Str.truthy f)).
  - exact Hvalue.
  - intros f get v Hf. rewrite Hvalue.
    + f_equal. apply list_filter_iff. intros r.
      by apply attr_equals_string_attribute.
    + intros ->. unfold string_attributes in Hf.
      repeat (apply elem_of_cons in Hf as [[=]|Hf]). by apply elem_of_nil in Hf.
  - intros f value Hf Hns. unfold list_books. rewrite decide_True by done.
    simpl. apply list_books_loop_no_string.
    intros r _ [x Hx]. by apply (getattr_not_string f (deref s r) x).
  - intros f Hf.
    repeat (apply elem_of_cons in Hf as [->|Hf];
            [split; [done|]; apply (bool_decide_unpack _); by vm_compute|]).
    by apply elem_of_nil in Hf.
Qed.

(** C10. With a filter field under which some book of the collection holds a
    string, [list_books] called without a value raises [AttributeError]; called
    with a value it returns a list. *)
Theorem list_books_needs_value (f : string) (s : Store) :
  (∃ r, r ∈ books s ∧ str_attr f (deref s r)) →
  (list_books (Some f) None s).1 = Raises AttributeError
  ∧ ∀ v, ∃ l, (list_books (Some f) (Some v) s).1 = Returns l.
Proof.
  intros Hstr.
  assert (Hf : f ≠ "").
  { destruct Hstr as (r & _ & x & Hx). intros ->. by vm_compute in Hx. }
  unfold list_books. split.
  - rewrite decide_True by done. by apply list_books_loop_no_value.
  - intros v. rewrite decide_True by done. eexists.
    apply list_books_loop_value.
Qed.

Lemma list_books_needs_value_witness :
  (∃ r, r ∈ books Sample.library ∧ str_attr "genre" (deref Sample.library r))
  ∧ (list_books (Some "genre") None Sample.library).1 = Raises AttributeError
  ∧ ∀ v, ∃ l, (list_books (Some "genre") (Some v) Sample.library).1 = Returns l.
Proof.
  assert (H : ∃ r, r ∈ books Sample.library
                   ∧ str_attr "genre" (deref Sample.library r)).
  { exists 0. split; [apply (bool_decide_unpack _); by vm_compute|].
    exists "Fiction". by vm_compute. }
  split; [exact H|].
  exact (list_books_needs_value "genre" Sample.library H).
Defined.

(** ** get_statistics *)

Section counting.
Context {A : Type} (g : A → string).

(** The loop over one mapping: a key holds what it held plus the number of
    items with that key, when the key is not the empty string. *)
Lemma count_all_lookup (d : gmap string nat) (l : list A) (k : string) :
  let n := length (filter (λ x, g x = k) l) in
  foldl (λ d x, count_truthy (g x) d) d l !! k
  = if decide (k ≠ "" ∧ 0 < n) then Some (default 0 (d !! k) + n) else d !! k.
Proof.
  revert d. induction l as [|x l IH]; intros d; simpl.
  - rewrite decide_False by lia. done.
  - rewrite IH. clear IH. unfold count_truthy, count_up, Str.truthy.
    destruct (decide (g x = k)) as [Hx|Hx].
    + rewrite filter_cons_True by done. simpl.
      destruct (decide (k = "")) as [->|Hk].
      * rewrite !decide_False by tauto. done.
      * rewrite (decide_True (P := g x ≠ "")) by congruence.
        rewrite Hx, lookup_insert_eq. simpl.
        rewrite (decide_True (P := k ≠ "" ∧ 0 < S _)) by (split; [done|lia]).
        generalize (length (filter (λ x0, g x0 = k) l)). intros [|n].
        -- by rewrite decide_False by lia.
        -- rewrite decide_True by (split; [done|lia]). simpl. f_equal. lia.
    + rewrite filter_cons_False by done.
      destruct (decide (g x ≠ "")); [|done].
      rewrite lookup_insert_ne by done. done.
Qed.
End counting.

Lemma tally_fold s acc l :
  let st := foldl (tally s) acc l in
  total_books st = total_books acc
  ∧ genres st = foldl (λ d b, count_truthy (genre b) d) (genres acc) (deref s <$> l)
  ∧ statuses st = foldl (λ d b, count_truthy (status b) d) (statuses acc) (deref s <$> l)
  ∧ authors st = foldl (λ d b, count_truthy (author b) d) (authors acc) (deref s <$> l).
Proof.
  revert acc. induction l as [|r l IH]; intros acc; [done|].
  simpl. destruct (IH (tally s acc r)) as (-> & -> & -> & ->). done.
Qed.

Lemma occurrences_cons f k b l :
  occurrences f k (b :: l)
  = (if decide (f b = k) then 1 else 0) + occurrences f k l.
Proof.
  unfold occurrences. rewrite filter_cons. by destruct (decide (f b = k)).
Qed.

Lemma status_occurrences_total l :
  Forall valid_status l →
  occurrences status "Unread" l + occurrences status "Reading" l
  + occurrences status "Completed" l = length l.
Proof.
  induction 1 as [|b l Hb _ IH]; [done|].
  rewrite !occurrences_cons. simpl. rewrite <- IH.
  unfold valid_status, status_values in Hb.
  repeat (apply elem_of_cons in Hb as [->|Hb]; [simpl; lia|]).
  by apply elem_of_nil in Hb.
Qed.

Lemma occurrences_positive f k l :
  0 < occurrences f k l → ∃ b, b ∈ l ∧ f b = k.
Proof.
  unfold occurrences. intros Hpos.
  destruct (filter (λ b, f b = k) l) as [|b l'] eqn:Hfil; [simpl in Hpos; lia|].
  assert (Hb : b ∈ filter (λ b, f b = k) l) by (rewrite Hfil; left).
  apply list_elem_of_filter in Hb as [Hk Hb]. by exists b.
Qed.

(** C7. On a collection whose books have one of the three status values,
    [get_statistics] leaves the store as it is and returns: the size of the
    collection; for genres and for authors a mapping that holds, under each
    non-empty value some book has, the number of books with that value, and
    nothing else; for statuses a mapping whose keys are the three status
    values, each with the number of books of that status, so that the three
    counts add up to the size of the collection. *)
Theorem get_statistics_spec (s : Store) :
  Forall valid_status (collection s) →
  let st := (get_statistics s).1 in
  (get_statistics s).2 = s
  ∧ total_books st = length (collection s)
  ∧ (∀ g, genres st !! g = observed_count genre g (collection s))
  ∧ (∀ a, authors st !! a = observed_count author a (collection s))
  ∧ (∀ k, k ∈ dom (statuses st) ↔ k ∈ status_values)
  ∧ (∀ k, k ∈ status_values →
          statuses st !! k = Some (occurrences status k (collection s)))
  ∧ statuses st !!! "Unread" + statuses st !!! "Reading"
    + statuses st !!! "Completed" = total_books st.
Proof.
  intros Hvalid. unfold get_statistics. simpl.
  destruct (tally_fold s (mkStatistics (length (books s)) ∅ statuses_init ∅)
              (books s)) as (Htotal & Hgenres & Hstatuses & Hauthors).
  simpl in *. fold (collection s) in *.
  assert (Hlen : length (books s) = length (collection s)).
  { unfold collection. by rewrite length_fmap. }
  assert (Hstatus : ∀ k, k ∈ status_values →
    statuses (foldl (tally s)
      (mkStatistics (length (books s)) ∅ statuses_init ∅) (books s)) !! k
    = Some (occurrences status k (collection s))).
  { intros k Hk. rewrite Hstatuses, (count_all_lookup status).
    fold (occurrences status k (collection s)).
    assert (statuses_init !! k = Some 0) as ->.
    { unfold status_values in Hk.
      repeat (apply elem_of_cons in Hk as [->|Hk]; [by vm_compute|]).
      by apply elem_of_nil in Hk. }
    simpl. case_decide as Hc; [done|].
    f_equal. destruct (decide (k = "")) as [->|Hne].
    - unfold status_values in Hk.
      repeat (apply elem_of_cons in Hk as [[=]|Hk]). by apply elem_of_nil in Hk.
    - destruct (occurrences status k (collection s)); [done|].
      destruct Hc. split; [done|lia]. }
  split_and!.
  - done.
  - by rewrite Htotal.
  - intros g. rewrite Hgenres, (count_all_lookup genre), lookup_empty. done.
  - intros a. rewrite Hauthors, (count_all_lookup author), lookup_empty. done.
  - intros k. rewrite elem_of_dom.
    split.
    + intros [n Hn]. rewrite Hstatuses, (count_all_lookup status) in Hn.
      fold (occurrences status k (collection s)) in Hn.
      case_decide as Hc.
      * destruct Hc as [_ Hpos].
        apply occurrences_positive in Hpos as (b & Hb & <-).
        by apply (proj1 (Forall_forall _ _) Hvalid).
      * apply (bool_decide_unpack _).
        destruct (decide (k ∈ status_values)) as [|Hno]; [by apply bool_decide_pack|].
        exfalso. revert Hn. unfold status_values in Hno.
        unfold statuses_init. cbn [list_to_map foldr uncurry fst snd].
        repeat (rewrite lookup_insert; case_decide as Hk;
                [subst k; destruct Hno; apply (bool_decide_unpack _); by vm_compute
                |clear Hk]).
        by rewrite lookup_empty.
    + intros Hk. rewrite (Hstatus k Hk). by eexists.
  - exact Hstatus.
  - rewrite !lookup_total_alt, !Hstatus, Htotal, Hlen by
      (apply (bool_decide_unpack _); by vm_compute).
    simpl. by apply status_occurrences_total.
Qed.

Lemma get_statistics_spec_witness :
  Forall valid_status (collection Sample.library)
  ∧ (let st := (get_statistics Sample.library).1 in
     (get_statistics Sample.library).2 = Sample.library
     ∧ total_books st = length (collection Sample.library)
     ∧ (∀ g, genres st !! g = observed_count genre g (collection Sample.library))
     ∧ (∀ a, authors st !! a = observed_count author a (collection Sample.library))
     ∧ (∀ k, k ∈ dom (statuses st) ↔ k ∈ status_values)
     ∧ (∀ k, k ∈ status_values →
             statuses st !! k
             = Some (occurrences status k (collection Sample.library)))
     ∧ statuses st !!! "Unread" + statuses st !!! "Reading"
       + statuses st !!! "Completed" = total_books st).
Proof.
  assert (H : Forall valid_status (collection Sample.library)).
  { repeat constructor; apply (bool_decide_unpack _); by vm_compute. }
  split; [exact H | exact (get_statistics_spec Sample.library H)].
Defined.

(** ** add_book *)

Lemma add_books_fold s added :
  let s' := foldl (λ s r, add_book r s) s added in
  data_file s' = data_file s ∧ books s' = books s ++ added
  ∧ heap s' = heap s.
Proof.
  revert s. induction added as [|r added IH]; intros s; simpl.
  - by rewrite app_nil_r.
  - destruct (IH (add_book r s)) as (-> & -> & ->).
    by rewrite add_book_books, <- app_assoc.
Qed.

Lemma add_books_disk s added :
  added ≠ [] →
  let s' := foldl (λ s r, add_book r s) s added in
  disk s' !! data_file s = Some (Encoded (JList (to_dict <$> collection s'))).
Proof.
  destruct added as [|r added _] using rev_ind; [done|]. intros _.
  cbv zeta. rewrite foldl_snoc.
  destruct (add_books_fold s added) as (Hfile & _ & _).
  set (s1 := foldl (λ s r, add_book r s) s added) in *.
  pose proof (add_book_persisted r s1) as Hp. unfold persisted in Hp.
  rewrite Hp, Hfile. apply lookup_insert_eq.
Qed.

(** C9. [add_book] puts the book at the end of the collection, changes no
    object, writes the file, and returns for every book. After any sequence
    of calls the collection is the old one followed by the added books in
    the order of the calls, [list_books] without a filter returns just that,
    and the file holds it. *)
Theorem add_book_appends (s : Store) (added : list ref) :
  let s' := foldl (λ s r, add_book r s) s added in
  (∀ r, books (add_book r s) = books s ++ [r]
        ∧ heap (add_book r s) = heap s
        ∧ persisted s (add_book r s))
  ∧ books s' = books s ++ added
  ∧ heap s' = heap s
  ∧ collection s' = collection s ++ (deref s <$> added)
  ∧ list_books None None s' = (Returns (books s ++ added), s')
  ∧ (added ≠ [] →
     disk s' !! data_file s
     = Some (Encoded (JList (to_dict <$> collection s')))).
Proof.
  destruct (add_books_fold s added) as (Hfile & Hbooks & Hheap). simpl in *.
  split_and!.
  - done.
  - done.
  - done.
  - unfold collection, deref. by rewrite Hbooks, Hheap, fmap_app.
  - unfold list_books. by rewrite Hbooks.
  - intros Hne. by apply add_books_disk.
Qed.

(** * Further properties of the code *)

(** ** Records *)

(** X1. What [to_dict] writes always has the eleven parameters of [__init__]
    as its keys, and [from_dict] reads it back as the book that [__init__]
    builds from the same attributes: the book itself when its date is set,
    and the book dated [today] when its date is empty. *)
Theorem from_dict_to_dict_any (today : string) (b : Book) :
  (∃ d, to_dict b = JDict d ∧ dom d = Book_params)
  ∧ from_dict today (to_dict b) = Returns (rebuilt today b)
  ∧ (date_added b ≠ "" → rebuilt today b = b)
  ∧ (date_added b = "" → date_added (rebuilt today b) = today).
Proof.
  destruct b as [t a i g y p n st d r no]. split_and!.
  - eexists. split; [done|]. by vm_compute.
  - unfold from_dict, to_dict, rebuilt.
    rewrite decide_True by (by vm_compute).
    destruct d as [|c d]; by destruct y, n, r; vm_compute.
  - simpl. intros Hd. unfold rebuilt, Book_init. simpl.
    by rewrite decide_True.
  - simpl. intros ->. done.
Qed.

Lemma from_dict_ill_formed today data :
  ill_formed_record data → from_dict today data = Raises TypeError.
Proof.
  unfold from_dict, ill_formed_record.
  destruct data as [| | | | | |d]; try done.
  intros Hbad. case_decide as Hdom; [|done].
  destruct (d !! "title"), (d !! "author"); try done.
  by destruct Hbad as [?|[?|?]].
Qed.

(** X2. [from_dict] raises exactly for the ill-formed records, and then a
    [TypeError]: a value that is no mapping, a mapping without [title] or
    without [author], a mapping with a key that [__init__] does not take. *)
Theorem from_dict_raises (today : string) (data : json) (e : exn) :
  from_dict today data = Raises e ↔ e = TypeError ∧ ill_formed_record data.
Proof.
  unfold from_dict, ill_formed_record.
  destruct data as [| | | | | |d]; try (split; [by intros [= <-]|by intros [-> _]]).
  destruct (decide (dom d ⊆ Book_params)) as [Hdom|Hdom].
  - destruct (d !! "title") as [jt|] eqn:Ht, (d !! "author") as [ja|] eqn:Ha.
    + split.
      * unfold outcome_of_typed. by case_match.
      * intros [_ [?|[?|?]]]; done.
    + split; [intros [= <-]; eauto|by intros [-> _]].
    + split; [intros [= <-]; eauto|by intros [-> _]].
    + split; [intros [= <-]; eauto|by intros [-> _]].
  - split; [intros [= <-]; eauto|by intros [-> _]].
Qed.







(** ** Loading *)

Lemma from_dicts_returns today l bs h :
  Forall2 (λ j b, from_dict today j = Returns b) l bs →
  ∃ rs h', from_dicts today l h = Returns (rs, h')
           ∧ h ⊆ h' ∧ (λ r, h' !!! r) <$> rs = bs
           ∧ NoDup rs ∧ (∀ r, r ∈ rs → r ∉ dom h).
Proof.
  intros Hl. revert h. induction Hl as [|j b l bs Hj _ IH]; intros h.
  - exists [], h. split_and!; try done; [constructor|by intros r ?%elem_of_nil].
  - cbn [from_dicts]. rewrite Hj. cbn [mbind outcome_bind alloc].
    set (r := fresh (dom h)).
    assert (Hfresh : r ∉ dom h) by apply is_fresh.
    destruct (IH (<[r := b]> h)) as (rs & h' & -> & Hsub & Hrs & Hnd & Hnew).
    simpl. exists (r :: rs), h'.
    assert (Hr : r ∉ rs).
    { intros Hin. apply (Hnew r Hin).
      rewrite dom_insert_L, elem_of_union, elem_of_singleton. by left. }
    split_and!; [done| | | |].
    + transitivity (<[r := b]> h); [|done].
      by apply insert_subseteq, not_elem_of_dom.
    + simpl. f_equal; [|done]. apply lookup_total_correct.
      apply (lookup_weaken _ _ _ _ (lookup_insert_eq h r b) Hsub).
    + by constructor.
    + intros r' [->|Hin]%elem_of_cons; [done|].
      intros Hd. apply (Hnew r' Hin).
      rewrite dom_insert_L, elem_of_union. by right.
Qed.

Lemma from_dicts_raises today l1 j l2 e h :
  Forall (λ j, ∃ b, from_dict today j = Returns b) l1 →
  from_dict today j = Raises e →
  from_dicts today (l1 ++ j :: l2) h = Raises e.
Proof.
  intros Hl1 Hj. revert h. induction Hl1 as [|j1 l1 [b1 Hb1] _ IH]; intros h.
  - cbn [app from_dicts]. by rewrite Hj.
  - cbn [app from_dicts]. rewrite Hb1. cbn [mbind outcome_bind alloc].
    by rewrite IH.
Qed.

(** X4. A manager made on a file that holds a list of records which
    [from_dict] accepts returns with the books of the records as its
    collection, in the order of the file. Each record has an object of its
    own, none of them an object that was there before; the objects that were
    there are as they were, the files are untouched, and one notice tells the
    number of books. *)
Theorem load_library_loads (file : string) (env : Store) (l : list json)
    (bs : list Book) :
  disk env !! file = Some (Encoded (JList l)) →
  Forall2 (λ j b, from_dict (today env) j = Returns b) l bs →
  ∃ s', LibraryManager_init file env = Returns s'
        ∧ data_file s' = file
        ∧ collection s' = bs
        ∧ NoDup (books s')
        ∧ (∀ r, r ∈ books s' → r ∉ dom (heap env))
        ∧ heap env ⊆ heap s'
        ∧ disk s' = disk env
        ∧ ui s' = ui env ++ [st_success (Loaded (length l) file)].
Proof.
  intros Hfile Hl. unfold LibraryManager_init, load_library. simpl.
  rewrite Hfile. simpl.
  destruct (from_dicts_returns (today env) l bs (heap env) Hl)
    as (rs & h' & -> & Hsub & Hrs & Hnd & Hnew). simpl.
  assert (Hlen : length rs = length l).
  { rewrite <- (length_fmap (λ r, h' !!! r) rs), Hrs.
    symmetry. by apply Forall2_length in Hl. }
  eexists. split; [done|]. simpl. rewrite Hlen. split_and!; done.
Qed.

Lemma load_library_loads_witness :
  let env := save_library Sample.library in
  let l := to_dict <$> collection Sample.library in
  let bs := collection Sample.library in
  disk env !! "library.json" = Some (Encoded (JList l))
  ∧ Forall2 (λ j b, from_dict (today env) j = Returns b) l bs
  ∧ ∃ s', LibraryManager_init "library.json" env = Returns s'
          ∧ data_file s' = "library.json"
          ∧ collection s' = bs
          ∧ NoDup (books s')
          ∧ (∀ r, r ∈ books s' → r ∉ dom (heap env))
          ∧ heap env ⊆ heap s'
          ∧ disk s' = disk env
          ∧ ui s' = ui env ++ [st_success (Loaded (length l) "library.json")].
Proof.
  intros env l bs.
  assert (H1 : disk env !! "library.json" = Some (Encoded (JList l)))
    by (by vm_compute).
  assert (H2 : Forall2 (λ j b, from_dict (today env) j = Returns b) l bs).
  { repeat constructor; by vm_compute. }
  split; [exact H1|]. split; [exact H2|].
  exact (load_library_loads "library.json" env l bs H1 H2).
Defined.

(** X5. Loading is all or nothing: when the file holds a list in which some
    record is ill-formed and the records before it are accepted, the
    [TypeError] of that record leaves the constructor, and no manager comes
    into being. *)
Theorem load_library_raises (file : string) (env : Store)
    (l1 l2 : list json) (j : json) :
  disk env !! file = Some (Encoded (JList (l1 ++ j :: l2))) →
  Forall (λ j, ∃ b, from_dict (today env) j = Returns b) l1 →
  ill_formed_record j →
  LibraryManager_init file env = Raises TypeError.
Proof.
  intros Hfile Hl1 Hj. unfold LibraryManager_init, load_library. simpl.
  rewrite Hfile. simpl.
  rewrite (from_dicts_raises (today env) l1 j l2 TypeError); [done|done|].
  by apply from_dict_ill_formed.
Qed.

Lemma load_library_raises_witness :
  let env := mkStore "" [] ∅
    {[ "library.json" :=
         Encoded (JList ([to_dict Sample.dune]
                         ++ JDict {[ "title" := JStr "Emma" ]} :: [])) ]}
    [] "2025-03-12" in
  disk env !! "library.json"
  = Some (Encoded (JList ([to_dict Sample.dune]
                          ++ JDict {[ "title" := JStr "Emma" ]} :: [])))
  ∧ Forall (λ j, ∃ b, from_dict (today env) j = Returns b) [to_dict Sample.dune]
  ∧ ill_formed_record (JDict {[ "title" := JStr "Emma" ]})
  ∧ LibraryManager_init "library.json" env = Raises TypeError.
Proof.
  intros env.
  assert (H1 : disk env !! "library.json"
    = Some (Encoded (JList ([to_dict Sample.dune]
                            ++ JDict {[ "title" := JStr "Emma" ]} :: []))))
    by (by vm_compute).
  assert (H2 : Forall (λ j, ∃ b, from_dict (today env) j = Returns b)
                 [to_dict Sample.dune]).
  { repeat constructor. exists Sample.dune. by vm_compute. }
  assert (H3 : ill_formed_record (JDict {[ "title" := JStr "Emma" ]})).
  { right. left. by vm_compute. }
  split; [exact H1|]. split; [exact H2|]. split; [exact H3|].
  exact (load_library_raises "library.json" env _ _ _ H1 H2 H3).
Defined.

(** ** A session at the pages *)

Lemma restart_of_file file env bs :
  disk env !! file = Some (Encoded (JList (to_dict <$> bs))) →
  Forall dated bs →
  ∃ s', LibraryManager_init file env = Returns s'
        ∧ collection s' = bs ∧ disk s' = disk env.
Proof.
  intros Hfile Hdated. unfold LibraryManager_init, load_library. simpl.
  rewrite Hfile. simpl.
  destruct (from_dicts_to_dicts (today env) bs (heap env) Hdated)
    as (rs & h' & -> & _ & Hrs). simpl.
  eexists. split; [done|]. split; [exact Hrs|done].
Qed.

Lemma persisted_synced s s' :
  data_file s' = data_file s → persisted s s' → synced s'.
Proof.
  unfold persisted, synced. intros -> ->. apply lookup_insert_eq.
Qed.

Lemma same_data_synced s s' : same_data s s' → synced s → synced s'.
Proof.
  unfold synced, collection, deref. by intros (-> & -> & -> & ->).
Qed.

Lemma same_data_collection s s' : same_data s s' → collection s' = collection s.
Proof. unfold collection, deref. by intros (_ & -> & -> & _). Qed.

Lemma updated_collection s s' r b' :
  updated s s' r b' →
  collection s'
  = (λ r', if decide (r' = r) then b' else deref s r') <$> books s.
Proof.
  intros (_ & Hbooks & _ & Hr & Hother & _). unfold collection.
  rewrite Hbooks. apply list_fmap_ext. intros _ r' _.
  case_decide as Heq; [by subst|by apply Hother].
Qed.

Lemma updated_dated s s' r b' :
  updated s s' r b' → dated b' → Forall dated (collection s) →
  Forall dated (collection s').
Proof.
  intros Hu Hb Hall. rewrite (updated_collection s s' r b' Hu).
  unfold collection in Hall. rewrite Forall_fmap in *.
  eapply Forall_impl; [exact Hall|]. intros r' Hr'. simpl in *.
  by case_decide.
Qed.

Lemma updated_synced s s' r b' : updated s s' r b' → synced s'.
Proof. intros (Hfile & _ & _ & _ & _ & Hp). by apply (persisted_synced s). Qed.

Lemma assign_and_save_updated_quiet s r b' :
  updated s (save_library (with_heap (<[r := b']> (heap s)) s)) r b'.
Proof.
  unfold updated, persisted, deref. simpl. split_and!; try done.
  - apply lookup_total_insert_eq.
  - intros r' Hne. by apply lookup_total_insert_ne.
Qed.

Lemma first_match_dated s t i r :
  first_match s t i r → Forall dated (collection s) → dated (deref s r).
Proof.
  intros [Hi _] Hdated.
  apply (proj1 (Forall_forall _ _) Hdated), list_elem_of_fmap.
  exists r. split; [done|]. by apply list_elem_of_lookup_2 in Hi.
Qed.

(** What a session keeps: the file holds the collection and every book has
    its date. *)
Lemma remove_book_keeps t s :
  synced s → Forall dated (collection s) →
  synced (remove_book t s).2 ∧ Forall dated (collection (remove_book t s).2).
Proof.
  intros Hsync Hdated. unfold remove_book.
  case_decide; simpl.
  - split; [apply lookup_insert_eq|].
    unfold collection in *. simpl. rewrite Forall_fmap in *.
    apply Forall_forall. intros r [_ Hr]%list_elem_of_filter.
    by apply (proj1 (Forall_forall _ _) Hdated).
  - assert (Hsame : filter (λ r, ¬ title_is s t r) (books s) = books s).
    { apply filter_all. intros r Hr Ht. apply H, filter_shorter. eauto. }
    unfold synced, collection in *. simpl. by rewrite Hsame.
Qed.

Lemma update_book_form_keeps selected_title u s :
  synced s → Forall dated (collection s) →
  synced (update_book_form selected_title u s).2
  ∧ Forall dated (collection (update_book_form selected_title u s).2).
Proof.
  intros Hsync Hdated. unfold update_book_form.
  case_decide; [done|]. case_decide; [|done].
  destruct (get_book_by_title selected_title s) as [r|] eqn:Hfind; [|done].
  apply get_book_by_title_Some in Hfind as [i Hfirst].
  destruct u as [v|q|v|t a g y p ib pu st q n]; simpl.
  - destruct (update_book_status_found selected_title v s i r Hfirst) as [_ Hu].
    split; [by apply (updated_synced _ _ _ _ Hu)|].
    apply (updated_dated _ _ _ _ Hu); [|done].
    exact (first_match_dated s selected_title i r Hfirst Hdated).
  - destruct (in_range q) eqn:Hq.
    + destruct (rate_book_found selected_title q s i r Hq Hfirst) as [_ Hu].
      split; [by apply (updated_synced _ _ _ _ Hu)|].
      apply (updated_dated _ _ _ _ Hu); [|done].
      exact (first_match_dated s selected_title i r Hfirst Hdated).
    + by rewrite (rate_book_out_of_range selected_title q s Hq).
  - destruct (add_notes_found selected_title v s i r Hfirst) as [_ Hu].
    split; [by apply (updated_synced _ _ _ _ Hu)|].
    apply (updated_dated _ _ _ _ Hu); [|done].
    exact (first_match_dated s selected_title i r Hfirst Hdated).
  - pose proof (assign_and_save_updated_quiet s r
        (set_details t a g y p ib pu st q n (deref s r))) as Hu.
    split; [by apply (updated_synced _ _ _ _ Hu)|].
    apply (updated_dated _ _ _ _ Hu); [|done].
    exact (first_match_dated s selected_title i r Hfirst Hdated).
Qed.

Lemma add_book_form_submitted_keeps t a g y p i pu st q n s :
  today s ≠ "" → synced s → Forall dated (collection s) →
  synced (add_book_form_submitted t a g y p i pu st q n s)
  ∧ Forall dated (collection (add_book_form_submitted t a g y p i pu st q n s)).
Proof.
  intros Htoday Hsync Hdated. unfold add_book_form_submitted.
  case_decide; [|done]. unfold alloc. simpl.
  split; [apply lookup_insert_eq|].
  unfold collection, deref in *. simpl. rewrite fmap_app, Forall_app. split.
  - rewrite Forall_fmap in *. eapply Forall_impl; [exact Hdated|].
    intros r Hr. simpl in *.
    destruct (decide (r = fresh (dom (heap s)))) as [->|Hne].
    + rewrite lookup_total_insert_eq. by apply Book_init_dated.
    + by rewrite lookup_total_insert_ne.
  - repeat constructor. rewrite lookup_total_insert_eq.
    by apply Book_init_dated.
Qed.

Lemma act_today s a : today (act s a) = today s.
Proof.
  destruct a as [t au g y p i pu st r n|selected_title u|selected_title]; simpl.
  - unfold add_book_form_submitted. by case_decide.
  - unfold update_book_form. repeat case_decide; try done.
    destruct (get_book_by_title selected_title s) eqn:Hfind; [|done].
    destruct u; simpl; try done.
    + unfold update_book_status. by rewrite Hfind.
    + unfold rate_book. destruct (in_range new_rating); simpl; [|done].
      by rewrite Hfind.
    + unfold add_notes. by rewrite Hfind.
  - unfold remove_book_form, remove_book. by repeat case_decide.
Qed.

Lemma act_keeps s a :
  today s ≠ "" → synced s → Forall dated (collection s) →
  synced (act s a) ∧ Forall dated (collection (act s a)).
Proof.
  intros Htoday Hsync Hdated.
  destruct a as [t au g y p i pu st r n|selected_title u|selected_title]; simpl.
  - by apply add_book_form_submitted_keeps.
  - by apply update_book_form_keeps.
  - unfold remove_book_form. repeat case_decide; try done.
    by apply remove_book_keeps.
Qed.

(** X6. A library whose file holds its collection and whose books carry
    their date stays so through every sequence of actions at the pages
    (adding by the form, updating status, rating, notes or all details,
    removing), whether the single action succeeds or not. Hence a manager
    made afterwards on the file, in any world whose disk holds the file as
    the session left it, returns and loads the collection as the session
    left it. *)
Theorem session_survives_restart (s : Store) (actions : list action) :
  today s ≠ "" → synced s → Forall dated (collection s) →
  let s1 := foldl act s actions in
  synced s1
  ∧ Forall dated (collection s1)
  ∧ ∀ env, disk env !! data_file s1 = disk s1 !! data_file s1 →
           ∃ s', LibraryManager_init (data_file s1) env = Returns s'
                 ∧ collection s' = collection s1.
Proof.
  revert s. induction actions as [|a actions IH]; intros s Htoday Hsync Hdated.
  - simpl. split_and!; [done|done|]. intros env Henv.
    rewrite Hsync in Henv.
    destruct (restart_of_file _ env _ Henv Hdated) as (s' & Hs' & Hc & _).
    by exists s'.
  - simpl. destruct (act_keeps s a Htoday Hsync Hdated) as [Hsync' Hdated'].
    apply IH; [by rewrite act_today|done|done].
Qed.

Lemma session_survives_restart_witness :
  today Sample.library ≠ ""
  ∧ synced Sample.library
  ∧ Forall dated (collection Sample.library)
  ∧ (let s1 := foldl act Sample.library sample_actions in
     synced s1
     ∧ Forall dated (collection s1)
     ∧ ∀ env, disk env !! data_file s1 = disk s1 !! data_file s1 →
              ∃ s', LibraryManager_init (data_file s1) env = Returns s'
                    ∧ collection s' = collection s1).
Proof.
  assert (H1 : today Sample.library ≠ "") by done.
  assert (H2 : synced Sample.library) by (by vm_compute).
  assert (H3 : Forall dated (collection Sample.library)).
  { repeat constructor; by vm_compute. }
  split; [exact H1|]. split; [exact H2|]. split; [exact H3|].
  exact (session_survives_restart Sample.library sample_actions H1 H2 H3).
Defined.

(** ** The start of the application *)

Lemma alloc_all_spec bs h :
  ∃ rs h', alloc_all bs h = (rs, h')
           ∧ h ⊆ h' ∧ (λ r, h' !!! r) <$> rs = bs.
Proof.
  revert h. induction bs as [|b bs IH]; intros h.
  - by exists [], h.
  - cbn [alloc_all alloc]. set (r := fresh (dom h)).
    destruct (IH (<[r := b]> h)) as (rs & h' & -> & Hsub & Hrs).
    exists (r :: rs), h'. split_and!; [done| |].
    + transitivity (<[r := b]> h); [|done].
      apply insert_subseteq, not_elem_of_dom, is_fresh.
    + simpl. f_equal; [|done]. apply lookup_total_correct.
      apply (lookup_weaken _ _ _ _ (lookup_insert_eq h r b) Hsub).
Qed.

Lemma add_books_today s rs :
  today (foldl (λ s book, add_book book s) s rs) = today s.
Proof.
  revert s. induction rs as [|r rs IH]; intros s; [done|].
  simpl. by rewrite IH.
Qed.

Lemma sample_books_added s0 :
  books s0 = [] →
  ∃ rs h, alloc_all (create_sample_books (today s0)) (heap s0) = (rs, h)
    ∧ let s := foldl (λ s book, add_book book s) (with_heap h s0) rs in
      data_file s = data_file s0
      ∧ collection s = create_sample_books (today s0)
      ∧ synced s ∧ heap s0 ⊆ heap s ∧ today s = today s0.
Proof.
  intros Hempty.
  destruct (alloc_all_spec (create_sample_books (today s0)) (heap s0))
    as (rs & h & Halloc & Hsub & Hrs).
  exists rs, h. split; [done|]. cbv zeta.
  destruct (add_books_fold (with_heap h s0) rs) as (Hfile & Hbooks & Hheap).
  simpl in Hfile, Hbooks, Hheap. rewrite Hempty in Hbooks. simpl in Hbooks.
  split_and!.
  - done.
  - unfold collection, deref. by rewrite Hbooks, Hheap.
  - unfold synced. rewrite Hfile.
    apply (add_books_disk (with_heap h s0) rs).
    intros ->. discriminate Hrs.
  - by rewrite Hheap.
  - by rewrite add_books_today.
Qed.

(** X7. When the manager of a new session comes up empty, because there is
    no library file, because its text does not decode, or because it holds
    an empty list, [main] adds the three sample books: the collection is
    then the sample books in their order, the file holds them, and the
    objects that were there are untouched. A later session, in any world
    whose disk holds that file, loads the three books and adds none. *)
Theorem main_startup_samples (env : Store) :
  (∀ j, disk env !! "library.json" ≠ Some (Encoded j))
  ∨ disk env !! "library.json" = Some (Encoded (JList [])) →
  ∃ s, main_startup env = Returns s
       ∧ data_file s = "library.json"
       ∧ collection s = create_sample_books (today env)
       ∧ synced s
       ∧ heap env ⊆ heap s
       ∧ (today env ≠ "" →
          ∀ env', disk env' !! "library.json" = disk s !! "library.json" →
                  ∃ s', main_startup env' = Returns s'
                        ∧ collection s' = collection s
                        ∧ disk s' = disk env').
Proof.
  intros Hfile.
  assert (Hinit : ∃ s0, LibraryManager_init "library.json" env = Returns s0
            ∧ books s0 = [] ∧ data_file s0 = "library.json"
            ∧ heap s0 = heap env ∧ today s0 = today env).
  { unfold LibraryManager_init, load_library. simpl.
    destruct Hfile as [Hbad| ->].
    - destruct (disk env !! "library.json") as [[raw|j]|];
        [|by destruct (Hbad j)|]; by eexists.
    - by eexists. }
  destruct Hinit as (s0 & Hs0 & Hempty & Hname & Hheap0 & Htoday0).
  destruct (sample_books_added s0 Hempty)
    as (rs & h & Halloc & Hfile_s & Hcoll & Hsync & Hsub & Htoday).
  unfold main_startup at 1. rewrite Hs0. cbn [mbind outcome_bind].
  rewrite decide_True by done. rewrite Halloc.
  eexists. split; [done|]. rewrite <- Htoday0, <- Hheap0.
  split_and!; [by rewrite Hfile_s|done|done|done|].
  intros Hday env' Henv'.
  set (s := foldl (λ s book, add_book book s) (with_heap h s0) rs) in *.
  assert (Hdated : Forall dated (collection s)).
  { rewrite Hcoll. repeat constructor; by apply Book_init_dated. }
  unfold synced in Hsync. rewrite Hfile_s, Hname in Hsync.
  rewrite Hsync in Henv'.
  destruct (restart_of_file _ env' _ Henv' Hdated) as (s' & Hs' & Hc & Hd).
  exists s'. unfold main_startup. rewrite Hs'. cbn [mbind outcome_bind].
  rewrite decide_False; [done|].
  intros Hnone. unfold collection in Hc at 1. rewrite Hnone, Hcoll in Hc.
  discriminate Hc.
Qed.

Lemma main_startup_samples_witness :
  ((∀ j, disk Sample.garbled_world !! "library.json" ≠ Some (Encoded j))
   ∨ disk Sample.garbled_world !! "library.json" = Some (Encoded (JList [])))
  ∧ ∃ s, main_startup Sample.garbled_world = Returns s
         ∧ data_file s = "library.json"
         ∧ collection s = create_sample_books (today Sample.garbled_world)
         ∧ synced s
         ∧ heap Sample.garbled_world ⊆ heap s
         ∧ (today Sample.garbled_world ≠ "" →
            ∀ env', disk env' !! "library.json" = disk s !! "library.json" →
                    ∃ s', main_startup env' = Returns s'
                          ∧ collection s' = collection s
                          ∧ disk s' = disk env').
Proof.
  assert (H : (∀ j, disk Sample.garbled_world !! "library.json" ≠ Some (Encoded j))
              ∨ disk Sample.garbled_world !! "library.json"
                = Some (Encoded (JList []))).
  { left. intros j. by vm_compute. }
  split; [exact H | exact (main_startup_samples Sample.garbled_world H)].
Defined.

(** ** Lookups after changes *)

Section first_found.
Context {A : Type} (P : A → Prop) `{!∀ x, Decision (P x)}.

Lemma first_found_cons x l :
  snd <$> list_find P (x :: l)
  = if decide (P x) then Some x else snd <$> list_find P l.
Proof.
  cbn [list_find]. case_decide; [done|].
  by destruct (list_find P l) as [[i y]|].
Qed.

Lemma first_found_app l x :
  snd <$> list_find P (l ++ [x])
  = match snd <$> list_find P l with
    | Some y => Some y
    | None => if decide (P x) then Some x else None
    end.
Proof.
  induction l as [|y l IH].
  - rewrite app_nil_l, first_found_cons. simpl.
    by destruct (decide (P x)).
  - rewrite <- app_comm_cons, !first_found_cons.
    by destruct (decide (P y)).
Qed.

Lemma first_found_filter (Q : A → Prop) `{!∀ x, Decision (Q x)} l :
  (∀ x, P x → Q x) →
  snd <$> list_find P (filter Q l) = snd <$> list_find P l.
Proof.
  intros HPQ. induction l as [|y l IH]; [done|].
  rewrite first_found_cons. destruct (decide (Q y)) as [Hq|Hq].
  - rewrite filter_cons_True, first_found_cons by done. by case_decide.
  - rewrite filter_cons_False by done. rewrite decide_False; [done|].
    intros Hp. by apply Hq, HPQ.
Qed.

Lemma first_found_head l : head (filter P l) = snd <$> list_find P l.
Proof.
  induction l as [|y l IH]; [done|].
  rewrite first_found_cons, filter_cons. by case_decide.
Qed.
End first_found.

Lemma first_match_list_find s t i r :
  list_find (title_is s t) (books s) = Some (i, r) → first_match s t i r.
Proof. intros H. by apply list_find_Some in H. Qed.

Lemma get_book_by_title_ext t s s' :
  books s' = books s →
  (∀ r, r ∈ books s → title (deref s' r) = title (deref s r)) →
  get_book_by_title t s' = get_book_by_title t s.
Proof.
  intros Hbooks Htitle. unfold get_book_by_title. rewrite Hbooks.
  generalize (books s) Htitle. clear. intros l Htitle.
  induction l as [|r l IH]; [done|].
  rewrite !first_found_cons.
  assert (Hr : title_is s' t r ↔ title_is s t r).
  { unfold title_is. rewrite Htitle; [done|left]. }
  rewrite IH by (intros r' Hr'; apply Htitle; by right).
  destruct (decide (title_is s t r)) as [Ht|Ht].
  - by rewrite decide_True by (by apply Hr).
  - by rewrite decide_False by (by rewrite Hr).
Qed.

(** X8. After [remove_book] no lookup by the removed title finds a book, and
    a second removal returns [False] and leaves collection, objects and files
    alone; the lookup by any other title finds the book it found before. *)
Theorem remove_book_then_lookup (t : string) (s : Store) :
  let s1 := (remove_book t s).2 in
  get_book_by_title t s1 = None
  ∧ (remove_book t s1).1 = false
  ∧ same_data s1 (remove_book t s1).2
  ∧ ∀ t', Str.lower t' ≠ Str.lower t →
          get_book_by_title t' s1 = get_book_by_title t' s.
Proof.
  cbv zeta.
  assert (Hbooks : books (remove_book t s).2
                   = filter (λ r, ¬ title_is s t r) (books s)).
  { unfold remove_book. by case_decide. }
  assert (Hheap : heap (remove_book t s).2 = heap s).
  { unfold remove_book. by case_decide. }
  assert (Hsame : ∀ t' r, title_is (remove_book t s).2 t' r ↔ title_is s t' r).
  { intros t' r. unfold title_is, deref. by rewrite Hheap. }
  assert (Hnone : ∀ r, r ∈ books (remove_book t s).2
                       → ¬ title_is (remove_book t s).2 t r).
  { intros r. rewrite Hbooks, list_elem_of_filter, Hsame. tauto. }
  split_and!.
  - by apply get_book_by_title_None.
  - unfold remove_book at 1. rewrite decide_False; [done|].
    intros Hlt. apply filter_shorter in Hlt as (r & Hr & Hn).
    apply (Hnone r Hr). by apply dec_stable.
  - unfold remove_book at 2. rewrite decide_False.
    + unfold same_data. simpl. split_and!; try done.
      apply filter_all. apply Hnone.
    + intros Hlt. apply filter_shorter in Hlt as (r & Hr & Hn).
      apply (Hnone r Hr). by apply dec_stable.
  - intros t' Hne. unfold get_book_by_title. rewrite Hbooks.
    rewrite (list_find_ext _ (title_is s t')) by apply Hsame.
    apply first_found_filter. unfold title_is. intros r Ht' Ht.
    apply Hne. by rewrite <- Ht', <- Ht.
Qed.

(** X9. After [add_book] the lookup by a title finds what it found before;
    when it found nothing, it finds the added book if that has the title,
    letter case aside. A book added under a title that the collection has is
    never the one a lookup returns. *)
Theorem add_book_then_lookup (t : string) (book : ref) (s : Store) :
  get_book_by_title t (add_book book s)
  = match get_book_by_title t s with
    | Some r => Some r
    | None => if decide (title_is s t book) then Some book else None
    end.
Proof.
  unfold get_book_by_title. rewrite add_book_books.
  rewrite (list_find_ext _ (title_is s t)) by done.
  apply first_found_app.
Qed.

Lemma updated_lookup s s' r b' t :
  updated s s' r b' → title b' = title (deref s r) →
  get_book_by_title t s' = get_book_by_title t s.
Proof.
  intros (_ & Hbooks & _ & Hr & Hother & _) Htitle.
  apply get_book_by_title_ext; [done|]. intros r' _.
  destruct (decide (r' = r)) as [->|Hne]; [by rewrite Hr|by rewrite Hother].
Qed.

(** X10. What an update writes, the next lookup reads: when [r] is the first
    match of a title, then after [update_book_status], after [rate_book] with
    a rating in range and after [add_notes] the lookup by that title still
    returns [r], now with the new status, the stored rating, the new notes;
    and a lookup by any title returns what it returned before the update. *)
Theorem update_then_lookup (t : string) (s : Store) (i : nat) (r : ref) :
  first_match s t i r →
  ∀ new_status q new_notes t',
    (get_book_by_title t' (update_book_status t new_status s).2
       = get_book_by_title t' s
     ∧ status (deref (update_book_status t new_status s).2 r) = new_status)
    ∧ ((0 <= q ∧ q <= 5)%Q →
       get_book_by_title t' (rate_book t q s).2 = get_book_by_title t' s
       ∧ stored_rating q (rating (deref (rate_book t q s).2 r)))
    ∧ (get_book_by_title t' (add_notes t new_notes s).2
         = get_book_by_title t' s
       ∧ notes (deref (add_notes t new_notes s).2 r) = new_notes).
Proof.
  intros Hfirst new_status q new_notes t'. split_and!.
  - destruct (update_book_status_found t new_status s i r Hfirst) as [_ Hu].
    by apply (updated_lookup _ _ _ _ _ Hu).
  - destruct (update_book_status_found t new_status s i r Hfirst) as [_ Hu].
    by destruct Hu as (_ & _ & _ & -> & _).
  - intros Hq%in_range_true.
    destruct (rate_book_found t q s i r Hq Hfirst) as [_ Hu]. split.
    + by apply (updated_lookup _ _ _ _ _ Hu).
    + destruct Hu as (_ & _ & _ & -> & _). apply positive_rating_stored.
  - destruct (add_notes_found t new_notes s i r Hfirst) as [_ Hu].
    by apply (updated_lookup _ _ _ _ _ Hu).
  - destruct (add_notes_found t new_notes s i r Hfirst) as [_ Hu].
    by destruct Hu as (_ & _ & _ & -> & _).
Qed.

Lemma update_then_lookup_witness :
  first_match Sample.library "the great gatsby" 2 2
  ∧ ∀ new_status q new_notes t',
    (get_book_by_title t' (update_book_status "the great gatsby" new_status
                             Sample.library).2
       = get_book_by_title t' Sample.library
     ∧ status (deref (update_book_status "the great gatsby" new_status
                        Sample.library).2 2) = new_status)
    ∧ ((0 <= q ∧ q <= 5)%Q →
       get_book_by_title t' (rate_book "the great gatsby" q Sample.library).2
       = get_book_by_title t' Sample.library
       ∧ stored_rating q
           (rating (deref (rate_book "the great gatsby" q Sample.library).2 2)))
    ∧ (get_book_by_title t' (add_notes "the great gatsby" new_notes
                               Sample.library).2
         = get_book_by_title t' Sample.library
       ∧ notes (deref (add_notes "the great gatsby" new_notes
                         Sample.library).2 2) = new_notes).
Proof.
  assert (H : first_match Sample.library "the great gatsby" 2 2).
  { apply first_match_list_find. by vm_compute. }
  split; [exact H|].
  exact (update_then_lookup "the great gatsby" Sample.library 2 2 H).
Defined.

(** ** Lookup, filter and search agree *)

Lemma append_empty_r s : s +:+ "" = s.
Proof.
  induction s as [|c s IH]; [done|].
  change (String c (s +:+ "") = String c s). by rewrite IH.
Qed.

Lemma contains_refl s : Str.contains s s = true.
Proof.
  apply contains_spec. exists "", "".
  change (s = s +:+ ""). by rewrite append_empty_r.
Qed.

(** X11. The filter of [list_books] on the attribute [title] returns the
    books of a title in order; its first book is the one [get_book_by_title]
    returns, and each of its books is among the results of [search_books]
    for the same text. *)
Theorem title_filter_lookup_search (t : string) (s : Store) :
  ∃ l, (list_books (Some "title") (Some t) s).1 = Returns l
       ∧ l = filter (title_is s t) (books s)
       ∧ head l = get_book_by_title t s
       ∧ ∀ r, r ∈ l → r ∈ (search_books t s).1.
Proof.
  exists (filter (title_is s t) (books s)).
  assert (Hin : ("title", title) ∈ string_attributes) by left.
  split_and!.
  - unfold list_books. rewrite decide_True by done. simpl.
    rewrite list_books_loop_value. simpl. f_equal.
    apply list_filter_iff. intros r.
    by apply (attr_equals_string_attribute "title" title).
  - done.
  - apply first_found_head.
  - intros r [Ht Hr]%list_elem_of_filter.
    unfold search_books. simpl.
    rewrite (foldl_append_filter (λ r, matches (Str.lower t) (deref s r))).
    simpl. apply list_elem_of_filter. split; [|done].
    unfold matches. unfold title_is in Ht. rewrite Ht, contains_refl. done.
Qed.

(** X12. The letter case of an argument does not count: two titles, two
    queries or two filter values that are equal in small letters give the
    same lookup, the same removal, the same search results and the same
    filtered list. *)
Theorem argument_case_irrelevant (t t' : string) (s : Store) :
  Str.lower t = Str.lower t' →
  get_book_by_title t s = get_book_by_title t' s
  ∧ (remove_book t s).1 = (remove_book t' s).1
  ∧ books (remove_book t s).2 = books (remove_book t' s).2
  ∧ (search_books t s).1 = (search_books t' s).1
  ∧ ∀ f, (list_books (Some f) (Some t) s).1 = (list_books (Some f) (Some t') s).1.
Proof.
  intros Heq.
  assert (Htitle : ∀ r, title_is s t r ↔ title_is s t' r).
  { intros r. unfold title_is. by rewrite Heq. }
  assert (Hfilter : filter (λ r, ¬ title_is s t r) (books s)
                    = filter (λ r, ¬ title_is s t' r) (books s)).
  { apply list_filter_iff. intros r. by rewrite Htitle. }
  split_and!.
  - unfold get_book_by_title. by rewrite (list_find_ext _ (title_is s t')).
  - unfold remove_book. simpl. rewrite Hfilter. by repeat case_decide.
  - unfold remove_book. simpl. rewrite Hfilter. by repeat case_decide.
  - unfold search_books. simpl. by rewrite Heq.
  - intros f. unfold list_books. case_decide; [|done]. simpl.
    rewrite !list_books_loop_value. simpl. f_equal.
    apply list_filter_iff. intros r. unfold attr_equals. by rewrite Heq.
Qed.

Lemma argument_case_irrelevant_witness :
  Str.lower "The Great GATSBY" = Str.lower "the great gatsby"
  ∧ get_book_by_title "The Great GATSBY" Sample.library
    = get_book_by_title "the great gatsby" Sample.library
  ∧ (remove_book "The Great GATSBY" Sample.library).1
    = (remove_book "the great gatsby" Sample.library).1
  ∧ books (remove_book "The Great GATSBY" Sample.library).2
    = books (remove_book "the great gatsby" Sample.library).2
  ∧ (search_books "The Great GATSBY" Sample.library).1
    = (search_books "the great gatsby" Sample.library).1
  ∧ ∀ f, (list_books (Some f) (Some "The Great GATSBY") Sample.library).1
         = (list_books (Some f) (Some "the great gatsby") Sample.library).1.
Proof.
  assert (H : Str.lower "The Great GATSBY" = Str.lower "the great gatsby")
    by (by vm_compute).
  split; [exact H|].
  exact (argument_case_irrelevant _ _ Sample.library H).
Defined.

(** ** Statistics on any collection *)

Lemma status_occurrences_bound l :
  occurrences status "Unread" l + occurrences status "Reading" l
  + occurrences status "Completed" l ≤ length l.
Proof.
  induction l as [|b l IH]; [done|].
  rewrite !occurrences_cons. simpl.
  repeat case_decide; try lia; congruence.
Qed.

(** X13. On every collection, whatever the statuses of its books,
    [get_statistics] counts under each of the three status values the books
    of that status, gives a status outside the three a key of its own with
    its count, and counts no book under the empty string; so the counts of
    the three status values add up to at most the number of books. *)
Theorem get_statistics_any_status (s : Store) :
  let st := (get_statistics s).1 in
  (∀ k, k ∈ status_values →
        statuses st !! k = Some (occurrences status k (collection s)))
  ∧ (∀ k, k ∉ status_values →
          statuses st !! k = observed_count status k (collection s))
  ∧ (∀ b, b ∈ collection s → status b ≠ "" →
          ∃ n, statuses st !! status b = Some n ∧ 0 < n)
  ∧ statuses st !! "" = None
  ∧ statuses st !!! "Unread" + statuses st !!! "Reading"
    + statuses st !!! "Completed" ≤ total_books st.
Proof.
  unfold get_statistics. simpl.
  destruct (tally_fold s (mkStatistics (length (books s)) ∅ statuses_init ∅)
              (books s)) as (Htotal & _ & Hstatuses & _).
  simpl in Htotal, Hstatuses. fold (collection s) in Hstatuses.
  assert (Hk : ∀ k,
    statuses (foldl (tally s)
      (mkStatistics (length (books s)) ∅ statuses_init ∅) (books s)) !! k
    = if decide (k ≠ "" ∧ 0 < occurrences status k (collection s))
      then Some (default 0 (statuses_init !! k)
                 + occurrences status k (collection s))
      else statuses_init !! k).
  { intros k. rewrite Hstatuses. apply (count_all_lookup status). }
  assert (Hinit : ∀ k, k ∈ status_values → statuses_init !! k = Some 0).
  { intros k Hin. unfold status_values in Hin.
    repeat (apply elem_of_cons in Hin as [->|Hin]; [by vm_compute|]).
    by apply elem_of_nil in Hin. }
  assert (Hnoinit : ∀ k, k ∉ status_values → statuses_init !! k = None).
  { intros k Hno. unfold status_values in Hno. unfold statuses_init.
    cbn [list_to_map foldr uncurry fst snd].
    repeat (rewrite lookup_insert; case_decide as Hc;
            [subst k; destruct Hno; apply (bool_decide_unpack _); by vm_compute
            |clear Hc]).
    apply lookup_empty. }
  assert (Hthree : ∀ k, k ∈ status_values →
    statuses (foldl (tally s)
      (mkStatistics (length (books s)) ∅ statuses_init ∅) (books s)) !! k
    = Some (occurrences status k (collection s))).
  { intros k Hin. rewrite Hk, (Hinit k Hin). simpl.
    case_decide as Hc; [done|]. f_equal.
    destruct (occurrences status k (collection s)) eqn:Hocc; [done|].
    destruct Hc. split; [|lia]. intros ->. unfold status_values in Hin.
    repeat (apply elem_of_cons in Hin as [[=]|Hin]). by apply elem_of_nil in Hin. }
  split_and!.
  - exact Hthree.
  - intros k Hno. rewrite Hk, (Hnoinit k Hno). done.
  - intros b Hb Hne. rewrite Hk.
    assert (Hpos : 0 < occurrences status (status b) (collection s)).
    { unfold occurrences.
      assert (Hin : b ∈ filter (λ b', status b' = status b) (collection s))
        by (by apply list_elem_of_filter).
      destruct (filter _ (collection s)); [by apply elem_of_nil in Hin|].
      simpl. lia. }
    rewrite decide_True by done. eexists. split; [done|]. lia.
  - rewrite Hk. rewrite decide_False by tauto. by vm_compute.
  - rewrite !lookup_total_alt, !Hthree, Htotal by
      (apply (bool_decide_unpack _); by vm_compute).
    simpl. etransitivity; [apply status_occurrences_bound|].
    unfold collection. by rewrite length_fmap.
Qed.

(** ** The view page *)

Lemma view_library_books_filtered filter_option name get selected s :
  (filter_option, (name, get)) ∈ view_filters →
  view_library_books filter_option selected s
  = (if decide (selected = "All") then books s
     else filter (λ r, get (deref s r) = selected) (books s))
  ∧ (name, get) ∈ string_attributes ∧ name ≠ "".
Proof.
  unfold view_filters. intros Hin.
  repeat (apply elem_of_cons in Hin as [[= -> -> ->]|Hin];
          [split_and!;
           [unfold view_library_books; simpl; by repeat case_decide
           |unfold string_attributes; repeat first [by left | right]
           |done]|]).
  by apply elem_of_nil in Hin.
Qed.

(** X14. The table of [view_library] holds books of the collection in their
    order. Under the options Status, Genre and Author it holds all books when
    "All" is selected, and else the books whose attribute is the selected
    value letter by letter; these are among the books that [list_books]
    returns for the same attribute and value, which compares without regard
    to letter case. Under any other option it holds all books. *)
Theorem view_library_books_spec (filter_option selected : string) (s : Store) :
  view_library_books filter_option selected s `sublist_of` books s
  ∧ (∀ name get, (filter_option, (name, get)) ∈ view_filters →
       view_library_books filter_option selected s
       = (if decide (selected = "All") then books s
          else filter (λ r, get (deref s r) = selected) (books s))
       ∧ ∃ l, (list_books (Some name) (Some selected) s).1 = Returns l
              ∧ (selected ≠ "All" →
                 ∀ r, r ∈ view_library_books filter_option selected s → r ∈ l))
  ∧ (filter_option ∉ view_filters.*1 →
     view_library_books filter_option selected s = books s).
Proof.
  split_and!.
  - unfold view_library_books.
    repeat case_decide; try done; apply sublist_filter.
  - intros name get Hin.
    destruct (view_library_books_filtered _ _ _ selected s Hin)
      as (Hview & Hattr & Hname).
    split; [exact Hview|]. eexists. split.
    + unfold list_books. rewrite decide_True by done. simpl.
      apply list_books_loop_value.
    + intros Hne r. rewrite Hview, decide_False by done. simpl.
      rewrite !list_elem_of_filter. intros [Heq Hr]. split; [|done].
      apply (attr_equals_string_attribute name get); [done|]. by rewrite Heq.
  - intros Hno. unfold view_library_books.
    repeat (case_decide as Hc;
            [subst filter_option; destruct Hno;
             apply (bool_decide_unpack _); by vm_compute|clear Hc]).
    done.
Qed.

(** X15. The second select box of the view, under Genre and under Author,
    offers "All" and then the non-empty values of the attribute that occur
    in the collection, each once, in the order of strings; selecting any of
    these values gives a table that is not empty. *)
Theorem choices_spec (f : Book → string) (s : Store) :
  ∃ l, choices f s = "All" :: l
       ∧ Sorted str_le l
       ∧ NoDup l
       ∧ (∀ v, v ∈ l ↔ v ≠ "" ∧ ∃ b, b ∈ collection s ∧ f b = v)
       ∧ (∀ filter_option name v,
            (filter_option, (name, f)) ∈ view_filters →
            filter_option ∈ ["Genre"; "Author"] → v ∈ l → v ≠ "All" →
            view_library_books filter_option v s ≠ []).
Proof.
  set (vs := remove_dups (filter Str.truthy (f <$> collection s))).
  exists (merge_sort str_le vs).
  assert (Hin : ∀ v, v ∈ merge_sort str_le vs
                     ↔ v ≠ "" ∧ ∃ b, b ∈ collection s ∧ f b = v).
  { intros v. rewrite merge_sort_Permutation. unfold vs.
    rewrite elem_of_remove_dups, list_elem_of_filter, list_elem_of_fmap.
    unfold Str.truthy. split.
    - intros [Hne (b & -> & Hb)]. split; [done|by exists b].
    - intros [Hne (b & Hb & <-)]. split; [done|by exists b]. }
  split_and!.
  - done.
  - apply Sorted_merge_sort. apply _.
  - rewrite merge_sort_Permutation. apply NoDup_remove_dups.
  - exact Hin.
  - intros filter_option name v Hopt _ Hv Hne.
    destruct (view_library_books_filtered _ _ _ v s Hopt) as (-> & _ & _).
    rewrite decide_False by done.
    apply Hin in Hv as (_ & b & Hb & Hfb).
    unfold collection in Hb. apply list_elem_of_fmap in Hb as (r & -> & Hr).
    intros Hnil.
    assert (Hr' : r ∈ filter (λ r, f (deref s r) = v) (books s))
      by (by apply list_elem_of_filter).
    rewrite Hnil in Hr'. by apply elem_of_nil in Hr'.
Qed.

(** ** The update and remove pages *)

Lemma first_match_nonempty s t i r : first_match s t i r → books s ≠ [].
Proof. intros [Hi _] Hnil. by rewrite Hnil in Hi. Qed.

(** X16. The branch "All Details" of the update form, for a selected title
    that is not empty and has [r] as its first match: it shows its notice,
    assigns to the object [r] and to no other, keeps the collection and its
    order, and writes the file, with the one notice of saving. The date of
    the book stays; the seven texts are stored as entered, an empty title or
    author too; a year or a number of pages that is not positive is stored
    as missing; a rating is stored when positive, without a check of the
    range, and as missing otherwise. *)
Theorem update_all_details_spec (selected_title : string) (s : Store)
    (i : nat) (r : ref) (t a g : string) (y p : Z) (ib pu st : string) (q : Q)
    (n : string) :
  first_match s selected_title i r → selected_title ≠ "" →
  let res := update_book_form selected_title
               (AllDetails t a g y p ib pu st q n) s in
  let b' := deref res.2 r in
  res.1 = [DetailsUpdated selected_title]
  ∧ updated s res.2 r b'
  ∧ ui res.2 = ui s ++ [st_success (Saved (data_file s))]
  ∧ date_added b' = date_added (deref s r)
  ∧ (title b' = t ∧ author b' = a ∧ genre b' = g ∧ isbn b' = ib
     ∧ publisher b' = pu ∧ status b' = st ∧ notes b' = n)
  ∧ ((0 < y)%Z → publication_year b' = Some y)
  ∧ ((y ≤ 0)%Z → publication_year b' = None)
  ∧ ((0 < p)%Z → pages b' = Some p)
  ∧ ((p ≤ 0)%Z → pages b' = None)
  ∧ ((0 < q)%Q → rating b' = Some q)
  ∧ ((q <= 0)%Q → rating b' = None).
Proof.
  intros Hfirst Hsel. cbv zeta. unfold update_book_form.
  rewrite decide_False by (by apply (first_match_nonempty s selected_title i r)).
  rewrite decide_True by done.
  rewrite (proj2 (get_book_by_title_Some selected_title s r)) by eauto.
  cbn [fst snd].
  pose proof (assign_and_save_updated_quiet s r
                (set_details t a g y p ib pu st q n (deref s r))) as Hu.
  assert (Hr : deref (save_library (with_heap
                 (<[r := set_details t a g y p ib pu st q n (deref s r)]> (heap s)) s)) r
               = set_details t a g y p ib pu st q n (deref s r))
    by (by destruct Hu as (_ & _ & _ & ? & _)).
  rewrite Hr. split_and!; try done.
  - intros Hy. simpl. by rewrite (proj2 (Z.ltb_lt 0 y) Hy).
  - intros Hy. simpl. by rewrite (proj2 (Z.ltb_ge 0 y) Hy).
  - intros Hp. simpl. by rewrite (proj2 (Z.ltb_lt 0 p) Hp).
  - intros Hp. simpl. by rewrite (proj2 (Z.ltb_ge 0 p) Hp).
  - intros Hq. simpl. unfold positive_rating.
    destruct (Qle_bool q 0) eqn:Hle; [|done].
    apply Qle_bool_iff in Hle. by destruct (Qlt_not_le _ _ Hq).
  - intros Hq. simpl. unfold positive_rating.
    by rewrite (proj2 (Qle_bool_iff q 0) Hq).
Qed.

Lemma update_all_details_spec_witness :
  first_match Sample.library "the great gatsby" 2 2
  ∧ "the great gatsby" ≠ ""
  ∧ (let res := update_book_form "the great gatsby"
                  (AllDetails "Gatsby" "" "Novel" 0 180 "" "Scribner"
                     "Reading" 6 "") Sample.library in
     let b' := deref res.2 2 in
     res.1 = [DetailsUpdated "the great gatsby"]
     ∧ updated Sample.library res.2 2 b'
     ∧ ui res.2 = ui Sample.library
                  ++ [st_success (Saved (data_file Sample.library))]
     ∧ date_added b' = date_added (deref Sample.library 2)
     ∧ (title b' = "Gatsby" ∧ author b' = "" ∧ genre b' = "Novel"
        ∧ isbn b' = "" ∧ publisher b' = "Scribner" ∧ status b' = "Reading"
        ∧ notes b' = "")
     ∧ ((0 < 0)%Z → publication_year b' = Some 0%Z)
     ∧ ((0 ≤ 0)%Z → publication_year b' = None)
     ∧ ((0 < 180)%Z → pages b' = Some 180%Z)
     ∧ ((180 ≤ 0)%Z → pages b' = None)
     ∧ ((0 < 6)%Q → rating b' = Some 6%Q)
     ∧ ((6 <= 0)%Q → rating b' = None)).
Proof.
  assert (H1 : first_match Sample.library "the great gatsby" 2 2).
  { apply first_match_list_find. by vm_compute. }
  assert (H2 : "the great gatsby" ≠ "") by done.
  split; [exact H1|]. split; [exact H2|].
  exact (update_all_details_spec "the great gatsby" Sample.library 2 2
           "Gatsby" "" "Novel" 0 180 "" "Scribner" "Reading" 6 "" H1 H2).
Defined.

Lemma title_count_complement t s :
  length (filter (λ r, ¬ title_is s t r) (books s)) + title_count t s
  = length (books s).
Proof.
  unfold title_count.
  rewrite <- (filter_app_complement (title_is s t) (books s)) at 3.
  rewrite length_app. lia.
Qed.

(** X17. The remove page, for the title of a book of the collection. When
    the title is not empty, the book and every other book of that title,
    letter case aside, leave the collection, so that it shrinks by their
    number, the other books stay in order, no lookup by the title finds a
    book afterwards, and the file is written. When the title is empty the
    page does nothing: a book without title cannot be removed there. *)
Theorem remove_book_form_spec (r : ref) (s : Store) :
  r ∈ books s →
  let t := title (deref s r) in
  let res := remove_book_form t s in
  (t ≠ "" →
     res.1 = []
     ∧ books res.2 = filter (λ r', ¬ title_is s t r') (books s)
     ∧ (r ∉ books res.2)
     ∧ 0 < title_count t s
     ∧ length (books res.2) + title_count t s = length (books s)
     ∧ get_book_by_title t res.2 = None
     ∧ persisted s res.2)
  ∧ (t = "" → res = ([], s)).
Proof.
  intros Hr. cbv zeta. unfold remove_book_form.
  assert (Hne : books s ≠ []).
  { intros Hnil. rewrite Hnil in Hr. by apply elem_of_nil in Hr. }
  rewrite decide_False by done.
  assert (Hself : title_is s (title (deref s r)) r) by done.
  split.
  - intros Ht. rewrite decide_True by done. cbn [fst snd].
    assert (Hlt : length (filter (λ r', ¬ title_is s (title (deref s r)) r') (books s))
                  < length (books s)).
    { apply filter_shorter. exists r. split; [done|]. by intros Hn. }
    assert (Hres : (remove_book (title (deref s r)) s).2
      = save_library (notify (st_success (Removed (title (deref s r))))
          (with_books (filter (λ r', ¬ title_is s (title (deref s r)) r') (books s)) s))).
    { unfold remove_book. simpl. by rewrite decide_True. }
    rewrite Hres.
    assert (Hpos : 0 < title_count (title (deref s r)) s).
    { pose proof (title_count_complement (title (deref s r)) s). lia. }
    split_and!; try done.
    + simpl. rewrite list_elem_of_filter. tauto.
    + simpl. apply title_count_complement.
    + apply get_book_by_title_None. simpl. intros r'.
      rewrite list_elem_of_filter. unfold title_is, deref. simpl. tauto.
  - intros Ht. rewrite decide_False; [done|]. unfold Str.truthy. tauto.
Qed.

Lemma remove_book_form_spec_witness :
  1 ∈ books Sample.two_dunes
  ∧ (let t := title (deref Sample.two_dunes 1) in
     let res := remove_book_form t Sample.two_dunes in
     (t ≠ "" →
        res.1 = []
        ∧ books res.2 = filter (λ r', ¬ title_is Sample.two_dunes t r')
                          (books Sample.two_dunes)
        ∧ (1 ∉ books res.2)
        ∧ 0 < title_count t Sample.two_dunes
        ∧ length (books res.2) + title_count t Sample.two_dunes
          = length (books Sample.two_dunes)
        ∧ get_book_by_title t res.2 = None
        ∧ persisted Sample.two_dunes res.2)
     ∧ (t = "" → res = ([], Sample.two_dunes))).
Proof.
  assert (H : 1 ∈ books Sample.two_dunes).
  { apply (bool_decide_unpack _). by vm_compute. }
  split; [exact H | exact (remove_book_form_spec 1 Sample.two_dunes H)].
Defined.

(** ** The views after an addition *)

(** X18. After [add_book] the search for a query returns what it returned
    before, followed by the added book when that matches; the filtered list
    returns what it returned before, followed by the added book when its
    attribute has the value; and the statistics count one book more. *)
Theorem add_book_then_views (book : ref) (s : Store) (q f v : string) :
  (search_books q (add_book book s)).1
  = (search_books q s).1
    ++ (if matches (Str.lower q) (deref s book) then [book] else [])
  ∧ (f ≠ "" →
     ∃ l, (list_books (Some f) (Some v) s).1 = Returns l
          ∧ (list_books (Some f) (Some v) (add_book book s)).1
            = Returns (l ++ if decide (attr_equals f v (deref s book))
                            then [book] else []))
  ∧ total_books (get_statistics (add_book book s)).1
    = S (total_books (get_statistics s).1).
Proof.
  split_and!.
  - unfold search_books. simpl.
    rewrite !(foldl_append_filter (λ r, matches (Str.lower q) (deref s r))).
    simpl. rewrite filter_app. f_equal.
    destruct (matches (Str.lower q) (deref s book)) eqn:Hm.
    + rewrite filter_cons_True; [done|]. by rewrite Hm.
    + rewrite filter_cons_False; [done|]. rewrite Hm. exact id.
  - intros Hf. eexists. unfold list_books. rewrite !decide_True by done.
    cbn [fst]. rewrite !list_books_loop_value. split; [done|].
    rewrite add_book_books. simpl. by rewrite filter_app.
  - destruct (tally_fold (add_book book s)
        (mkStatistics (length (books (add_book book s))) ∅ statuses_init ∅)
        (books (add_book book s))) as (Ht1 & _).
    destruct (tally_fold s
        (mkStatistics (length (books s)) ∅ statuses_init ∅)
        (books s)) as (Ht2 & _).
    unfold get_statistics. cbn [fst]. rewrite Ht1, Ht2. simpl.
    rewrite length_app. simpl. lia.
Qed.

(** ** Records and the add page *)

(** X19. [to_dict] tells books apart: two books with the same record are the
    same book, attribute by attribute. *)
Theorem to_dict_inj (b1 b2 : Book) : to_dict b1 = to_dict b2 → b1 = b2.
Proof.
  destruct b1 as [t1 a1 i1 g1 y1 p1 n1 st1 d1 r1 no1].
  destruct b2 as [t2 a2 i2 g2 y2 p2 n2 st2 d2 r2 no2].
  intros Heq.
  assert (Hk : ∀ k, match to_dict (mkBook t1 a1 i1 g1 y1 p1 n1 st1 d1 r1 no1) with
                    | JDict d => d !! k | _ => None end
                  = match to_dict (mkBook t2 a2 i2 g2 y2 p2 n2 st2 d2 r2 no2) with
                    | JDict d => d !! k | _ => None end)
    by (intros k; by rewrite Heq).
  pose proof (Hk "title") as Ht. pose proof (Hk "author") as Ha.
  pose proof (Hk "isbn") as Hi. pose proof (Hk "genre") as Hg.
  pose proof (Hk "publication_year") as Hy. pose proof (Hk "publisher") as Hp.
  pose proof (Hk "pages") as Hn. pose proof (Hk "status") as Hst.
  pose proof (Hk "date_added") as Hd. pose proof (Hk "rating") as Hr.
  pose proof (Hk "notes") as Hno. clear Hk.
  clear Heq. vm_compute in Ht, Ha, Hi, Hg, Hy, Hp, Hn, Hst, Hd, Hr, Hno.
  injection Ht as ->. injection Ha as ->. injection Hi as ->.
  injection Hg as ->. injection Hp as ->. injection Hst as ->.
  injection Hd as ->. injection Hno as ->.
  destruct y1, y2, n1, n2, r1, r2; simplify_eq; done.
Qed.

Lemma to_dict_inj_witness :
  to_dict Sample.dune = to_dict (rebuilt "2025-03-20" Sample.dune)
  ∧ Sample.dune = rebuilt "2025-03-20" Sample.dune.
Proof.
  assert (H : to_dict Sample.dune = to_dict (rebuilt "2025-03-20" Sample.dune))
    by (by vm_compute).
  split; [exact H | exact (to_dict_inj _ _ H)].
Defined.

(** X20. The add page. With an empty title or an empty author it shows an
    error and leaves collection, objects and files alone. Otherwise it makes
    a new object, distinct from every object there is, puts it at the end of
    the collection and writes the file; the book carries the texts as
    entered, the day as its date, a year or a number of pages only when
    positive, and a rating only when it is not 0; the objects that were
    there are as they were. *)
Theorem add_book_form_spec (t a g : string) (y p : Z) (ib pu st : string)
    (q : Q) (n : string) (s : Store) :
  let s' := add_book_form_submitted t a g y p ib pu st q n s in
  (t = "" ∨ a = "" → s' = notify (st_error FieldsRequired) s ∧ same_data s s')
  ∧ (t ≠ "" → a ≠ "" →
     ∃ r, (r ∉ dom (heap s))
          ∧ books s' = books s ++ [r]
          ∧ deref s' r
            = mkBook t a ib g (if (0 <? y)%Z then Some y else None) pu
                (if (0 <? p)%Z then Some p else None) st (today s)
                (if Qeq_bool q 0 then None else Some q) n
          ∧ (∀ r', r' ∈ dom (heap s) → deref s' r' = deref s r')
          ∧ synced s').
Proof.
  cbv zeta. unfold add_book_form_submitted. split.
  - intros Hempty. rewrite decide_False.
    + split; [done|]. apply same_data_notify.
    + unfold Str.truthy. tauto.
  - intros Ht Ha. rewrite decide_True by done. unfold alloc.
    exists (fresh (dom (heap s))). split_and!.
    + apply is_fresh.
    + done.
    + unfold deref. simpl. by rewrite lookup_total_insert_eq.
    + intros r' Hr'. unfold deref. simpl.
      rewrite lookup_total_insert_ne; [done|].
      intros <-. by apply (is_fresh (dom (heap s))).
    + unfold synced. simpl. apply lookup_insert_eq.
Qed.

(** ** No object twice *)

Lemma update_book_form_shape selected_title u s :
  let s' := (update_book_form selected_title u s).2 in
  books s' = books s
  ∧ (heap s' = heap s
     ∨ ∃ r b', r ∈ books s ∧ heap s' = <[r := b']> (heap s)).
Proof.
  cbv zeta. unfold update_book_form.
  case_decide; [by split; [|left]|]. case_decide; [|by split; [|left]].
  destruct (get_book_by_title selected_title s) as [r|] eqn:Hfind;
    [|by split; [|left]].
  assert (Hr : r ∈ books s).
  { apply get_book_by_title_Some in Hfind as (i & Hi & _).
    by apply list_elem_of_lookup_2 in Hi. }
  destruct u as [v|q|v|t a g y p ib pu st q n]; cbn [snd].
  - unfold update_book_status. rewrite Hfind. split; [done|].
    right. by eexists _, _.
  - unfold rate_book. destruct (in_range q); cbn [negb]; [|by split; [|left]].
    rewrite Hfind. split; [done|]. right. by eexists _, _.
  - unfold add_notes. rewrite Hfind. split; [done|]. right. by eexists _, _.
  - split; [done|]. right. by eexists _, _.
Qed.

Lemma act_unshared s a : unshared s → unshared (act s a).
Proof.
  intros [Hnd Hdom].
  destruct a as [t au g y p i pu st r n|selected_title u|selected_title];
    cbn [act].
  - unfold add_book_form_submitted. case_decide; [|done].
    unfold alloc, unshared. simpl. split.
    + apply NoDup_app. split_and!; [done| |apply NoDup_singleton].
      intros r' Hr' ->%list_elem_of_singleton.
      by apply (is_fresh (dom (heap s))), Hdom.
    + intros r' [Hr'| ->%list_elem_of_singleton]%elem_of_app;
        rewrite dom_insert_L, elem_of_union, elem_of_singleton;
        [right; by apply Hdom|by left].
  - destruct (update_book_form_shape selected_title u s) as [Hbooks Hheap].
    unfold unshared. rewrite Hbooks. split; [done|]. intros r' Hr'.
    destruct Hheap as [->|(r0 & b' & _ & ->)]; [by apply Hdom|].
    rewrite dom_insert_L, elem_of_union. right. by apply Hdom.
  - unfold remove_book_form. repeat case_decide; try done.
    assert (Hb : books (remove_book selected_title s).2
                 = filter (λ r, ¬ title_is s selected_title r) (books s)).
    { unfold remove_book. by case_decide. }
    assert (Hh : heap (remove_book selected_title s).2 = heap s).
    { unfold remove_book. by case_decide. }
    unfold unshared. cbn [snd]. rewrite Hb, Hh. split.
    + by apply NoDup_filter.
    + intros r' [_ Hr']%list_elem_of_filter. by apply Hdom.
Qed.

(** X21. The pages never put one object into the collection twice: when the
    references of the collection are distinct and have their objects, they
    are and have so after every sequence of actions at the pages. Each entry
    of the collection is then a book of its own, and an update through one
    entry shows in no other. *)
Theorem session_unshared (s : Store) (actions : list action) :
  unshared s → unshared (foldl act s actions).
Proof.
  revert s. induction actions as [|a actions IH]; intros s Hs; [done|].
  simpl. by apply IH, act_unshared.
Qed.

Lemma session_unshared_witness :
  unshared Sample.library
  ∧ unshared (foldl act Sample.library sample_actions).
Proof.
  assert (H : unshared Sample.library).
  { split.
    - apply (bool_decide_unpack _). by vm_compute.
    - intros r Hr. apply (bool_decide_unpack _).
      change (books Sample.library) with [0; 1; 2] in Hr.
      repeat (apply elem_of_cons in Hr as [->|Hr]; [by vm_compute|]).
      by apply elem_of_nil in Hr. }
  split; [exact H | exact (session_unshared Sample.library sample_actions H)].
Defined.
